(** * dnstest.py: benchmark runner, pollution verifier and orchestration

    A shallow embedding of [src/dnstest.py].  Latencies and rates are
    Python floats; they are modelled as [Q] (the comparisons used by the
    code, [<] and [> 0.4], are exact on the values involved).  The network,
    the clock and the IP-ownership database are parameters: every
    theorem holds for all of their behaviours. *)

From Stdlib Require Import String Ascii List QArith ZArith Bool Lia.
From Stdlib Require Import Sorting.Sorted Sorting.Permutation.
Import ListNotations.
Open Scope string_scope.

(** ** Python runtime *)

(** The exceptions the modelled code can raise. *)
Inductive exn :=
| NameError (name : string)
| ValueError (msg : string)
| SystemExit (code : Z)
| NoResolverConfiguration
| DNSException (kind : string).

Inductive result (A : Type) :=
| Ok (a : A)
| Err (e : exn).
Arguments Ok {A} a.
Arguments Err {A} e.

Definition bind {A B} (m : result A) (f : A -> result B) : result B :=
  match m with Ok a => f a | Err e => Err e end.
Notation "'let*' x ':=' m 'in' f" := (bind m (fun x => f))
  (at level 200, x name, m at level 100, f at level 200).

(** [d.get(k, default)] on a dict kept as an association list, and
    [d[k] = v] (overwrites in place, appends a new key at the end). *)
Fixpoint dict_get {V} (k : string) (d : list (string * V)) (default : V) : V :=
  match d with
  | [] => default
  | (k', v) :: d' => if String.eqb k k' then v else dict_get k d' default
  end.

Fixpoint dict_set {V} (k : string) (v : V) (d : list (string * V)) : list (string * V) :=
  match d with
  | [] => [(k, v)]
  | (k', v') :: d' => if String.eqb k k' then (k', v) :: d' else (k', v') :: dict_set k v d'
  end.

(** Float comparison [x < y]. *)
Definition Qltb (x y : Q) : bool := negb (Qle_bool y x).

(** ** IP-Intelligence Lookup: [检查_google_ip] *)

Definition lower_ascii (c : ascii) : ascii :=
  let n := nat_of_ascii c in
  if (Nat.leb 65 n && Nat.leb n 90)%bool then ascii_of_nat (n + 32)%nat else c.

Fixpoint lower (s : string) : string :=
  match s with
  | EmptyString => EmptyString
  | String c s' => String (lower_ascii c) (lower s')
  end.

(** Python's [keyword in text]. *)
Fixpoint contains (k s : string) : bool :=
  prefix k s || match s with EmptyString => false | String _ s' => contains k s' end.

Fixpoint join (sep : string) (l : list string) : string :=
  match l with
  | [] => ""
  | [x] => x
  | x :: l' => x ++ sep ++ join sep l'
  end.

(** An MMDB record: field name to its [str()] value. *)
Definition mmdb_record := list (string * string).

(** The loaded reader: [None] when [ip.mmdb] is absent or fails to open. *)
Definition mmdb_reader := option (string -> option mmdb_record).

Definition org_fields := ["autonomous_system_organization"; "organization"; "isp"].
Definition google_keywords :=
  ["google"; "google llc"; "google cloud"; "google.com"; "alphabet"; "gcp"].

Definition 检查_google_ip (reader : mmdb_reader) (ip : string) : bool :=
  match reader with
  | None => false
  | Some get =>
      match get ip with
      | None | Some [] => false
      | Some response =>
          let org_text := join " " (map (fun f => lower (dict_get f response "")) org_fields) in
          existsb (fun keyword => contains keyword org_text) google_keywords
      end
  end.

(** ** dnspython's [Resolver] *)

(** [/etc/resolv.conf] as read by [Resolver.read_resolv_conf]. *)
Record resolv_conf := {
  rc_nameservers : list string;
  rc_search : list string;
  rc_ndots : option Z;
  rc_rotate : bool }.

Record Resolver := {
  nameservers : list string;
  search : list string;
  ndots : option Z;
  rotate : bool;
  timeout : Q;
  lifetime : Q;
  cache : option unit }.

(** [Resolver.reset()]: the library defaults, no cache. *)
Definition Resolver_reset : Resolver :=
  {| nameservers := []; search := []; ndots := None; rotate := false;
     timeout := 2; lifetime := 5; cache := None |}.

(** [read_resolv_conf]: raises when the file is unreadable or lists no
    nameserver. *)
Definition read_resolv_conf (sys : option resolv_conf) (r : Resolver) : result Resolver :=
  match sys with
  | None => Err NoResolverConfiguration
  | Some c =>
      match rc_nameservers c with
      | [] => Err NoResolverConfiguration
      | _ => Ok {| nameservers := rc_nameservers c; search := rc_search c;
                  ndots := rc_ndots c; rotate := rc_rotate c;
                  timeout := timeout r; lifetime := lifetime r; cache := cache r |}
      end
  end.

(** [dns.resolver.Resolver(configure=...)]. *)
Definition Resolver_new (sys : option resolv_conf) (configure : bool) : result Resolver :=
  if configure then read_resolv_conf sys Resolver_reset else Ok Resolver_reset.

Definition set_nameservers (v : list string) (r : Resolver) : Resolver :=
  {| nameservers := v; search := search r; ndots := ndots r; rotate := rotate r;
     timeout := timeout r; lifetime := lifetime r; cache := cache r |}.
Definition set_timeout (v : Q) (r : Resolver) : Resolver :=
  {| nameservers := nameservers r; search := search r; ndots := ndots r; rotate := rotate r;
     timeout := v; lifetime := lifetime r; cache := cache r |}.
Definition set_lifetime (v : Q) (r : Resolver) : Resolver :=
  {| nameservers := nameservers r; search := search r; ndots := ndots r; rotate := rotate r;
     timeout := timeout r; lifetime := v; cache := cache r |}.
Definition set_cache (v : option unit) (r : Resolver) : Resolver :=
  {| nameservers := nameservers r; search := search r; ndots := ndots r; rotate := rotate r;
     timeout := timeout r; lifetime := lifetime r; cache := v |}.

(** What [resolver.resolve(domain, rtype)] does: the answer's rdata, or an
    exception (Timeout, NXDOMAIN, NoAnswer, ...). *)
Inductive resolve_result :=
| Answers (rdata : list string)
| Raised (e : exn).

(** ** Isolated Resolver Factory *)

(** [创建干净_resolver], used once per verification round. *)
Definition 创建干净_resolver (sys : option resolv_conf) (dns_server : string) (timeout_ : Q)
  : result Resolver :=
  let* resolver := Resolver_new sys false in
  let resolver := set_nameservers [dns_server] resolver in
  let resolver := set_timeout timeout_ resolver in
  let resolver := set_lifetime timeout_ resolver in
  Ok (set_cache None resolver).

(** [_thread_local.resolvers]: the per-thread dict keyed by
    [(dns_server, timeout_sec)]. *)
Definition tl_cache := list ((string * Q) * Resolver).

Fixpoint tl_lookup (k : string * Q) (c : tl_cache) : option Resolver :=
  match c with
  | [] => None
  | (k', r) :: c' =>
      if String.eqb (fst k) (fst k') && Qeq_bool (snd k) (snd k') then Some r
      else tl_lookup k c'
  end.

(** [获取_resolver]: returns the updated thread-local dict with the resolver. *)
Definition 获取_resolver (sys : option resolv_conf) (c : tl_cache) (dns_server : string)
  (timeout_sec : Q) : result (tl_cache * Resolver) :=
  match tl_lookup (dns_server, timeout_sec) c with
  | Some r => Ok (c, r)
  | None =>
      let* r := Resolver_new sys true in
      let r := set_nameservers [dns_server] r in
      let r := set_timeout timeout_sec r in
      let r := set_lifetime timeout_sec r in
      Ok ((c ++ [((dns_server, timeout_sec), r)])%list, r)
  end.

(** A worker's thread-local dict after its successive calls of
    [获取_resolver], in the order it makes them; a call that raises (caught
    by [执行_dns查询]'s [except]) leaves the dict as it was. *)
Fixpoint resolver_calls (c : tl_cache) (calls : list (option resolv_conf * string * Q))
  : tl_cache :=
  match calls with
  | [] => c
  | (sys, s, t) :: calls' =>
      match 获取_resolver sys c s t with
      | Ok (c', _) => resolver_calls c' calls'
      | Err _ => resolver_calls c calls'
      end
  end.

(** ** Query Executor: [执行_dns查询]

    [start] and [stop] are the two [time.perf_counter()] readings around the
    call; [net] is what the network answers to a resolver at that moment. *)
Definition 执行_dns查询 (sys : option resolv_conf) (net : Resolver -> string -> string -> resolve_result)
  (start stop : Q) (c : tl_cache) (domain dns_server record_type : string) (timeout_sec : Q)
  : tl_cache * (bool * Q * list string) :=
  match 获取_resolver sys c dns_server timeout_sec with
  | Ok (c', resolver) =>
      match net resolver domain record_type with
      | Answers answers => (c', (true, (stop - start) * 1000, answers))
      | Raised _ => (c', (false, (stop - start) * 1000, []))
      end
  | Err _ => (c, (false, (stop - start) * 1000, []))
  end.

(** ** Pollution labels

    The code keeps the label as a Python string; these are its four values. *)
Inductive 污染状态 := 未测试 | 待检测 | 未污染 | 已污染.

Definition label (s : 污染状态) : string :=
  match s with
  | 未测试 => "未测试"
  | 待检测 => "待检测"
  | 未污染 => "未污染"
  | 已污染 => "已污染"
  end.

(** ** Benchmark Runner: [测试单个dns] *)

(** The result dict of [测试单个dns]. *)
Record bench_record := {
  dns_server : string;
  成功率 : Q;
  平均延迟_ms : Q;
  最小延迟_ms : Q;
  最大延迟_ms : Q;
  dns污染 : 污染状态;
  google_ips : list string }.

Definition set_dns污染 (v : 污染状态) (r : bench_record) : bench_record :=
  {| dns_server := dns_server r; 成功率 := 成功率 r; 平均延迟_ms := 平均延迟_ms r;
     最小延迟_ms := 最小延迟_ms r; 最大延迟_ms := 最大延迟_ms r; dns污染 := v;
     google_ips := google_ips r |}.

(** Python's [sum], [min] and [max] on a non-empty list of floats. *)
Definition py_sum (l : list Q) : Q := fold_left Qplus l 0.

Fixpoint py_min (m : Q) (l : list Q) : Q :=
  match l with [] => m | x :: l' => py_min (if Qltb x m then x else m) l' end.

Fixpoint py_max (m : Q) (l : list Q) : Q :=
  match l with [] => m | x :: l' => py_max (if Qltb m x then x else m) l' end.

Definition Q_of_nat (n : nat) : Q := inject_Z (Z.of_nat n).

(** The float literal [0.4]. *)
Definition threshold_04 : Q := 2 # 5.

(** The locals of [测试单个dns] updated by its loop. *)
Record run_state := {
  总次数 : nat;
  成功次数 : nat;
  延迟列表 : list Q;
  domain_ips : list (string * list string) }.

Section BenchmarkRunner.
Variable sys : option resolv_conf.
(** [net n] is the network during the [n]-th query of the run ([n] is the
    value of [总次数] once incremented), [clock n] the two perf_counter
    readings around it. *)
Variable net : nat -> Resolver -> string -> string -> resolve_result.
Variable clock : nat -> Q * Q.
(** [ipaddress.ip_address(s)]: [Some true] for an IPv4Address,
    [Some false] for an IPv6Address, [None] when it raises. *)
Variable ip_version4 : string -> option bool.

Definition record_type (ip_mode : string) (是IPv4 : bool) : string :=
  if negb (String.eqb ip_mode "6") && (String.eqb ip_mode "4" || 是IPv4) then "A" else "AAAA".

(** The [for domain in domains] loop: [None] is the early [return None]. *)
Fixpoint bench_loop (dns_server ip_mode : string) (是IPv4 : bool) (timeout_sec 延迟下限_ms : Q)
  (domains : list string) (c : tl_cache) (st : run_state) : tl_cache * option run_state :=
  match domains with
  | [] => (c, Some st)
  | domain :: rest =>
      let rtype := record_type ip_mode 是IPv4 in
      let n := S (总次数 st) in
      let '(c', (ok, latency, ips)) :=
        执行_dns查询 sys (net n) (fst (clock n)) (snd (clock n)) c domain dns_server rtype timeout_sec in
      let dips := dict_set domain ips (domain_ips st) in
      if Qltb latency 延迟下限_ms then (c', None)
      else bench_loop dns_server ip_mode 是IPv4 timeout_sec 延迟下限_ms rest c'
             {| 总次数 := n;
                成功次数 := if ok then S (成功次数 st) else 成功次数 st;
                延迟列表 := if ok then (延迟列表 st ++ [latency])%list else 延迟列表 st;
                domain_ips := dips |}
  end.

Definition run_init : run_state :=
  {| 总次数 := 0; 成功次数 := 0; 延迟列表 := []; domain_ips := [] |}.

(** [测试单个dns]; the thread-local resolver dict is threaded through. *)
Definition 测试单个dns (c : tl_cache) (dns_server : string) (domains : list string)
  (ip_mode : string) (timeout_sec 延迟下限_ms : Q) (开启污染检查 : bool)
  : tl_cache * option bench_record :=
  let 是IPv4 := match ip_version4 dns_server with Some b => b | None => true end in
  match bench_loop dns_server ip_mode 是IPv4 timeout_sec 延迟下限_ms domains c run_init with
  | (c', None) => (c', None)
  | (c', Some st) =>
      match 延迟列表 st with
      | [] => (c', None)
      | first :: rest =>
          if Nat.eqb (总次数 st) 0 then (c', None) else
          let 成功率_ := Q_of_nat (成功次数 st) / Q_of_nat (总次数 st) in
          let avg := py_sum (延迟列表 st) / Q_of_nat (length (延迟列表 st)) in
          let min_d := py_min first rest in
          let max_d := py_max first rest in
          let 污染状态_ := if 开启污染检查 && Qltb threshold_04 成功率_ then 待检测 else 未测试 in
          (c', Some {| dns_server := dns_server; 成功率 := 成功率_;
                       平均延迟_ms := avg; 最小延迟_ms := min_d; 最大延迟_ms := max_d;
                       dns污染 := 污染状态_;
                       google_ips := dict_get "google.com" (domain_ips st) [] |})
      end
  end.
End BenchmarkRunner.

(** ** Pollution Verifier: [终极污染检测] *)

Section PollutionVerifier.
Variable reader : mmdb_reader.
Variable sys : option resolv_conf.
(** [round_net i]: the network during round [i] of [range(5)]. *)
Variable round_net : nat -> Resolver -> string -> string -> resolve_result.

(** [for ip in benchmark_ips[:3]: if not 检查_google_ip(ip): return "已污染"]. *)
Fixpoint baseline_check (ips : list string) : bool :=
  match ips with
  | [] => true
  | ip :: ips' => if 检查_google_ip reader ip then baseline_check ips' else false
  end.

(** The [for i in range(5)] loop.  The second component is the log of the
    rounds (numbered 1..5) in which a resolver was built and
    [resolve("google.com", "A")] issued. *)
Fixpoint verify_rounds (dns_server : string) (todo : list nat) (纯净次数 : nat)
  (log : list nat) : result 污染状态 * list nat :=
  match todo with
  | [] => (Ok (if Nat.eqb 纯净次数 5 then 未污染 else 已污染), log)
  | i :: todo' =>
      match 创建干净_resolver sys dns_server 3 with
      | Err e => (Err e, log)
      | Ok resolver =>
          let log := (log ++ [S i])%list in
          match round_net i resolver "google.com" "A" with
          | Raised _ => (Ok 已污染, log)
          | Answers ips =>
              if forallb (检查_google_ip reader) ips
              then verify_rounds dns_server todo' (S 纯净次数) log
              else (Ok 已污染, log)
          end
      end
  end.

Definition 终极污染检测 (dns_server : string) (benchmark_ips : list string)
  : result 污染状态 * list nat :=
  if baseline_check (firstn 3 benchmark_ips)
  then verify_rounds dns_server (seq 0 5) 0 []
  else (Ok 已污染, []).
End PollutionVerifier.

(** ** Orchestrator: [main] *)

(** Python values, as far as [if name:] needs them. *)
Inductive pyval :=
| VInt (z : Z)
| VBool (b : bool)
| VObj.

Definition truthy (v : pyval) : bool :=
  match v with VInt z => negb (Z.eqb z 0) | VBool b => b | VObj => true end.

(** Name resolution inside [main]: its locals, then the module globals,
    then the builtins. *)
Definition scope := list (string * pyval).

Fixpoint lookup (x : string) (s : scope) : option pyval :=
  match s with
  | [] => None
  | (y, v) :: s' => if String.eqb x y then Some v else lookup x s'
  end.

(** Every name [main] assigns (the assignment to [开启污染检查] on line 281
    is commented out; [pollute = 1] stands on line 282). *)
Definition main_locals : scope :=
  [("choice", VObj); ("url", VObj); ("dns_list", VObj); ("mode", VObj);
   ("ip_mode", VObj); ("threads", VObj); ("n", VObj); ("test_domains", VObj);
   ("min_delay", VObj); ("timeout_ms", VObj); ("per_query_timeout_sec", VObj);
   ("pollute", VInt 1); ("结果列表", VObj); ("start_all", VObj); ("executor", VObj);
   ("futures", VObj); ("pbar", VObj); ("future", VObj); ("res", VObj);
   ("candidates", VObj); ("r", VObj); ("df", VObj); ("sort_cols", VObj);
   ("cols", VObj); ("output_file", VObj); ("best", VObj)].

(** The module's global names: its imports, constants and functions. *)
Definition module_globals : scope :=
  [("os", VObj); ("sys", VObj); ("time", VObj); ("ipaddress", VObj);
   ("threading", VObj); ("requests", VObj); ("pd", VObj); ("dns", VObj);
   ("ThreadPoolExecutor", VObj); ("as_completed", VObj); ("tqdm", VObj);
   ("Optional", VObj); ("Dict", VObj); ("Any", VObj); ("List", VObj);
   ("openpyxl", VObj); ("PatternFill", VObj); ("maxminddb", VObj);
   ("MMDB_AVAILABLE", VBool true); ("DEFAULT_URL", VObj); ("TEST_DOMAINS", VObj);
   ("加载_ip_mmdb_db", VObj); ("_ip_mmdb_reader", VObj); ("_ip_mmdb_lock", VObj);
   ("检查_google_ip", VObj); ("创建干净_resolver", VObj); ("终极污染检测", VObj);
   ("读取_dns列表", VObj); ("按IP版本过滤", VObj); ("_thread_local", VObj);
   ("获取_resolver", VObj); ("执行_dns查询", VObj); ("测试单个dns", VObj);
   ("设置_excel样式", VObj); ("main", VObj)].

(** The builtins [main] uses. *)
Definition builtins : scope :=
  [("print", VObj); ("input", VObj); ("int", VObj); ("float", VObj);
   ("max", VObj); ("min", VObj); ("len", VObj)].

Definition main_scope : scope := (main_locals ++ module_globals ++ builtins)%list.

(** [l[i] = f(l[i])]: writes through to the shared record. *)
Fixpoint update_at {A} (i : nat) (f : A -> A) (l : list A) : list A :=
  match l, i with
  | [], _ => []
  | x :: l', O => f x :: l'
  | x :: l', S i' => x :: update_at i' f l'
  end.

(** [candidates = [r for r in 结果列表 if r["dns污染"] == "待检测"]]: the
    candidates are the very dicts of [结果列表], kept here as their positions. *)
Fixpoint pending_positions (from : nat) (rs : list bench_record) : list nat :=
  match rs with
  | [] => []
  | r :: rs' =>
      if String.eqb (label (dns污染 r)) "待检测"
      then from :: pending_positions (S from) rs'
      else pending_positions (S from) rs'
  end.

(** [ThreadPoolExecutor(max_workers=...)]. *)
Definition ThreadPoolExecutor (max_workers : Z) : result unit :=
  if Z.leb max_workers 0 then Err (ValueError "max_workers must be greater than 0") else Ok tt.

Section Orchestrator.
(** [future.result()] for [终极污染检测(r["dns_server"], r["google_ips"])]. *)
Variable verify : string -> list string -> result 污染状态.

(** [r["dns污染"] = future.result()], or ["已污染"] when it raises, for each
    candidate; each future writes its own record, so the completion order
    of [as_completed] does not matter. *)
Definition write_verdicts (candidates : list nat) (rs : list bench_record) : list bench_record :=
  fold_left
    (fun store i =>
       update_at i
         (fun r => set_dns污染
                     (match verify (dns_server r) (google_ips r) with
                      | Ok v => v
                      | Err _ => 已污染
                      end) r) store)
    candidates rs.

(** Step 8. *)
Definition verification_phase (threads : Z) (rs : list bench_record) : result (list bench_record) :=
  match pending_positions 0 rs with
  | [] => Ok rs
  | candidates =>
      let* _ := ThreadPoolExecutor (Z.div threads 4) in
      Ok (write_verdicts candidates rs)
  end.
End Orchestrator.

(** Step 9: ["待检测"] becomes ["未测试"]. *)
Definition finalize (rs : list bench_record) : list bench_record :=
  map (fun r => if String.eqb (label (dns污染 r)) "待检测" then set_dns污染 未测试 r else r) rs.

(** [DataFrame.sort_values]: cells, lexicographic keys and a stable sort. *)
Inductive cell :=
| CNum (q : Q)
| CStr (s : string).

Definition column (name : string) (r : bench_record) : cell :=
  if String.eqb name "成功率" then CNum (成功率 r)
  else if String.eqb name "平均延迟_ms" then CNum (平均延迟_ms r)
  else if String.eqb name "最小延迟_ms" then CNum (最小延迟_ms r)
  else if String.eqb name "最大延迟_ms" then CNum (最大延迟_ms r)
  else if String.eqb name "dns污染" then CStr (label (dns污染 r))
  else CStr (dns_server r).

Definition cell_compare (a b : cell) : comparison :=
  match a, b with
  | CNum x, CNum y => Qcompare x y
  | CStr x, CStr y => String.compare x y
  | CNum _, CStr _ => Lt
  | CStr _, CNum _ => Gt
  end.

Fixpoint sort_compare (keys : list (string * bool)) (a b : bench_record) : comparison :=
  match keys with
  | [] => Eq
  | (col, asc) :: keys' =>
      match cell_compare (column col a) (column col b) with
      | Eq => sort_compare keys' a b
      | c => if asc then c else CompOpp c
      end
  end.

Fixpoint insert_by {A} (cmp : A -> A -> comparison) (x : A) (l : list A) : list A :=
  match l with
  | [] => [x]
  | y :: l' => match cmp x y with Lt => x :: y :: l' | _ => y :: insert_by cmp x l' end
  end.

Definition stable_sort {A} (cmp : A -> A -> comparison) (l : list A) : list A :=
  fold_left (fun acc x => insert_by cmp x acc) l [].

Definition sort_values (by_ : list string) (ascending : list bool) (rs : list bench_record)
  : result (list bench_record) :=
  if Nat.eqb (length by_) (length ascending)
  then Ok (stable_sort (sort_compare (combine by_ ascending)) rs)
  else Err (ValueError "Length of ascending != length of by").

(** Lines 306-339 of [main], from the collected benchmark results to the
    sorted table handed to [to_excel]; [s] is the scope names are looked
    up in. *)
Definition orchestrate (s : scope) (verify : string -> list string -> result 污染状态)
  (threads : Z) (结果列表 : list bench_record) : result (list bench_record) :=
  match 结果列表 with
  | [] => Err (SystemExit 1)
  | _ =>
      match lookup "开启污染检查" s with
      | None => Err (NameError "开启污染检查")
      | Some flag =>
          let 开启污染检查 := truthy flag in
          let* rs := if 开启污染检查 then verification_phase verify threads 结果列表
                     else Ok 结果列表 in
          let rs := finalize rs in
          let sort_cols := (["成功率"; "平均延迟_ms"] ++ (if 开启污染检查 then ["dns污染"] else []))%list in
          sort_values sort_cols [false; true; false] rs
      end
  end.

Definition TEST_DOMAINS :=
  ["google.com"; "facebook.com"; "amazon.com"; "microsoft.com"; "apple.com";
   "cloudflare.com"; "alibaba.com"; "baidu.com"; "tencent.com"; "netflix.com"].

(** The whole program after its prompts, for a candidate list [dns_list]
    (already filtered by IP version), the entered thread count [threads_in]
    and domain count [n_in], the delay bound and the timeout in ms. *)
Section Main.
Variable reader : mmdb_reader.
Variable sys : option resolv_conf.
Variable ip_version4 : string -> option bool.
(** The network and the clock seen by each candidate's benchmark run and
    by its verification rounds. *)
Variable net : string -> nat -> Resolver -> string -> string -> resolve_result.
Variable clock : string -> nat -> Q * Q.
Variable round_net : string -> nat -> Resolver -> string -> string -> resolve_result.

(** Step 7, in submission order (the order of [as_completed] is the
    scheduler's); one worker's thread-local dict is threaded through. *)
Fixpoint benchmark_phase (c : tl_cache) (dns_list : list string) (test_domains : list string)
  (ip_mode : string) (per_query_timeout_sec min_delay : Q) (pollute : bool)
  : list bench_record :=
  match dns_list with
  | [] => []
  | dns :: rest =>
      let '(c', res) := 测试单个dns sys (net dns) (clock dns) ip_version4 c dns test_domains
                           ip_mode per_query_timeout_sec min_delay pollute in
      match res with
      | Some r => r :: benchmark_phase c' rest test_domains ip_mode per_query_timeout_sec min_delay pollute
      | None => benchmark_phase c' rest test_domains ip_mode per_query_timeout_sec min_delay pollute
      end
  end.

Definition verify_main (server : string) (ips : list string) : result 污染状态 :=
  fst (终极污染检测 reader sys (round_net server) server ips).

Definition main_run_in (s : scope) (dns_list : list string) (ip_mode : string)
  (threads_in n_in : Z) (min_delay timeout_ms : Q) : result (list bench_record) :=
  let threads := Z.max 1 (Z.min threads_in 4096) in
  let n := Z.max 1 (Z.min n_in (Z.of_nat (length TEST_DOMAINS))) in
  let test_domains := firstn (Z.to_nat n) TEST_DOMAINS in
  let per_query_timeout_sec := timeout_ms / 1000 in
  let pollute := truthy (VInt 1) in
  let 结果列表 := benchmark_phase [] dns_list test_domains ip_mode per_query_timeout_sec min_delay pollute in
  orchestrate s verify_main threads 结果列表.

Definition main_run := main_run_in main_scope.
End Main.

(** ** Python string methods on [resp.text]

    [requests] decodes a [text/plain] response without a charset as
    ISO-8859-1, so every character of the text is a code point below 256;
    here each [ascii] stands for one such code point. *)

(** [str.isspace()] on code points below 256: [\t\n\v\f\r], [\x1c]-[\x1f],
    the space, [\x85] and [\xa0]. *)
Definition py_isspace (c : ascii) : bool :=
  let n := nat_of_ascii c in
  ((Nat.leb 9 n && Nat.leb n 13) || (Nat.leb 28 n && Nat.leb n 32) ||
   Nat.eqb n 133 || Nat.eqb n 160)%bool.

(** The line boundaries of [str.splitlines()] below 256 ([\r\n] is one
    boundary, handled in [splitlines_go]). *)
Definition is_linebreak (c : ascii) : bool :=
  let n := nat_of_ascii c in
  ((Nat.leb 10 n && Nat.leb n 13) || (Nat.leb 28 n && Nat.leb n 30) || Nat.eqb n 133)%bool.

(** [str.splitlines()]: [cur] is the line read so far; a last line without
    a boundary is kept only when it is not empty. *)
Fixpoint splitlines_go (s cur : string) : list string :=
  match s with
  | EmptyString => if String.eqb cur "" then [] else [cur]
  | String c s' =>
      if Ascii.eqb c "013"%char then
        match s' with
        | String d s'' =>
            if Ascii.eqb d "010"%char then cur :: splitlines_go s'' ""
            else cur :: splitlines_go s' ""
        | EmptyString => cur :: splitlines_go s' ""
        end
      else if is_linebreak c then cur :: splitlines_go s' ""
      else splitlines_go s' (cur ++ String c "")
  end.

Definition splitlines (s : string) : list string := splitlines_go s "".

Fixpoint lstrip (s : string) : string :=
  match s with
  | EmptyString => EmptyString
  | String c s' => if py_isspace c then lstrip s' else s
  end.

Fixpoint drop_space (l : list ascii) : list ascii :=
  match l with
  | [] => []
  | c :: l' => if py_isspace c then drop_space l' else l
  end.

Definition rstrip (s : string) : string :=
  string_of_list_ascii (rev (drop_space (rev (list_ascii_of_string s)))).

(** [str.strip()]. *)
Definition strip (s : string) : string := rstrip (lstrip s).

(** [str.split()]: runs of whitespace separate the words, none is empty. *)
Fixpoint split_go (s cur : string) : list string :=
  match s with
  | EmptyString => if String.eqb cur "" then [] else [cur]
  | String c s' =>
      if py_isspace c then
        (if String.eqb cur "" then split_go s' "" else cur :: split_go s' "")
      else split_go s' (cur ++ String c "")
  end.

Definition py_split (s : string) : list string := split_go s "".

(** ** DNS-list reader: [读取_dns列表] *)

Record http_response := {
  status_code : Z;
  resp_text : string }.

(** [requests.get(url, timeout=15)]: a response, or an exception
    (connection error, timeout, ...). *)
Inductive http_outcome :=
| Response (r : http_response)
| RequestFailed.

(** [resp.raise_for_status()] raises on a 4xx or 5xx status. *)
Definition raise_for_status (r : http_response) : bool :=
  (Z.leb 400 (status_code r) && Z.ltb (status_code r) 600)%bool.

Section ListReader.
(** [ipaddress.ip_address(s)]: [Some true] for an IPv4Address,
    [Some false] for an IPv6Address, [None] when it raises [ValueError]. *)
Variable ip_version4 : string -> option bool.

(** [for part in line.split(): try: ip_address(part); ...; break
    except ValueError: continue]. *)
Fixpoint first_address (parts : list string) : option string :=
  match parts with
  | [] => None
  | part :: parts' =>
      match ip_version4 part with
      | Some _ => Some part
      | None => first_address parts'
      end
  end.

(** [for line in lines: ...] with the list built so far. *)
Fixpoint read_lines (lines : list string) (dns_list : list string) : list string :=
  match lines with
  | [] => dns_list
  | line :: lines' =>
      let line := strip line in
      if String.eqb line "" then read_lines lines' dns_list
      else match first_address (py_split line) with
           | Some part => read_lines lines' (dns_list ++ [part])%list
           | None => read_lines lines' dns_list
           end
  end.

(** [读取_dns列表]; [None] when [requests.get] or [raise_for_status] raises. *)
Definition 读取_dns列表 (get : string -> http_outcome) (url : string) : option (list string) :=
  match get url with
  | RequestFailed => None
  | Response resp =>
      if raise_for_status resp then None
      else Some (read_lines (splitlines (resp_text resp)) [])
  end.

(** [按IP版本过滤]. *)
Definition 按IP版本过滤 (dns_list : list string) (mode : string) : list string :=
  let '(v4, v6) :=
    fold_left
      (fun acc ip_str =>
         let '(v4, v6) := acc in
         match ip_version4 ip_str with
         | Some true => ((v4 ++ [ip_str])%list, v6)
         | Some false => (v4, (v6 ++ [ip_str])%list)
         | None => (v4, v6)
         end)
      dns_list ([], []) in
  if String.eqb mode "4" then v4 else if String.eqb mode "6" then v6 else (v4 ++ v6)%list.
End ListReader.

(** Step 2 of [main]: [mode = input(...).strip() or "1"] and
    [{"1": "4", "2": "6", "3": "46"}[mode]]; [None] is the [KeyError]. *)
Definition 选择模式 (entered : string) : option string :=
  let mode := let m := strip entered in if String.eqb m "" then "1" else m in
  if String.eqb mode "1" then Some "4"
  else if String.eqb mode "2" then Some "6"
  else if String.eqb mode "3" then Some "46"
  else None.

(** ** Export: [df.to_excel] and [设置_excel样式] *)

(** A worksheet cell's value as openpyxl reads it back. *)
Inductive xl_value :=
| XStr (s : string)
| XNum (q : Q)
| XNone.

Definition xl_eqb (a b : xl_value) : bool :=
  match a, b with
  | XStr x, XStr y => String.eqb x y
  | XNum x, XNum y => Qeq_bool x y
  | XNone, XNone => true
  | _, _ => false
  end.

(** [cols] of step 10. *)
Definition export_cols (开启污染检查 : bool) : list string :=
  (["dns_server"; "成功率"; "平均延迟_ms"; "最小延迟_ms"; "最大延迟_ms"] ++
   (if 开启污染检查 then ["dns污染"] else []))%list.

(** [.rename(columns={...})]. *)
Definition rename_col (c : string) : string :=
  if String.eqb c "dns_server" then "DNS服务器"
  else if String.eqb c "成功率" then "成功率"
  else if String.eqb c "平均延迟_ms" then "平均延迟(ms)"
  else if String.eqb c "最小延迟_ms" then "最小延迟(ms)"
  else if String.eqb c "最大延迟_ms" then "最大延迟(ms)"
  else if String.eqb c "dns污染" then "DNS污染"
  else c.

Definition export_cell (c : string) (r : bench_record) : xl_value :=
  match column c r with CNum q => XNum q | CStr s => XStr s end.

(** The rows [df[cols].rename(...).to_excel(output_file, index=False)]
    writes: the header, then one row per record of the sorted table. *)
Definition to_excel_rows (开启污染检查 : bool) (report : list bench_record) : list (list xl_value) :=
  map (fun c => XStr (rename_col c)) (export_cols 开启污染检查) ::
  map (fun r => map (fun c => export_cell c r) (export_cols 开启污染检查)) report.

(** [ws.cell(row, column).value], 1-based; [None] outside the written cells. *)
Definition ws_cell (ws : list (list xl_value)) (row col : nat) : xl_value :=
  nth (col - 1) (nth (row - 1) ws []) XNone.

Definition ws_max_row (ws : list (list xl_value)) : nat := Nat.max 1 (length ws).
Definition ws_max_column (ws : list (list xl_value)) : nat :=
  Nat.max 1 (fold_left Nat.max (map (@length xl_value) ws) 0%nat).

(** Python's [len] on a string: its code points, i.e. the UTF-8 bytes
    that do not continue a sequence. *)
Definition utf8_length (s : string) : nat :=
  length (filter (fun c => let n := nat_of_ascii c in (Nat.ltb n 128 || Nat.leb 192 n)%bool)
                 (list_ascii_of_string s)).

Record styled_sheet := {
  st_rows : list (list xl_value);
  st_widths : list (nat * nat);
  st_fills : list (nat * nat) }.

Section ExcelStyle.
(** [len(str(x))] for a non-zero float [x] (Python's shortest repr). *)
Variable str_len_num : Q -> nat.

(** [len(str(c.value or ""))]: [None], [""] and [0.0] are falsy. *)
Definition value_len (v : xl_value) : nat :=
  match v with
  | XNone => 0
  | XStr s => utf8_length s
  | XNum q => if Qeq_bool q 0 then 0 else str_len_num q
  end.

Definition column_width (ws : list (list xl_value)) (col : nat) : nat :=
  Nat.min (fold_left Nat.max (map (fun row => value_len (ws_cell ws row col))
                                  (seq 1 (ws_max_row ws))) 0%nat + 2)%nat 55.

(** [设置_excel样式]: [load] is [openpyxl.load_workbook(output_file).active],
    [None] when it raises; the workbook is saved with the column widths
    (keyed by column index) and the cells filled green.  [None] is the
    silent [except: pass]. *)
Definition 设置_excel样式 (load : option (list (list xl_value))) (开启污染检查 : bool)
  : option styled_sheet :=
  match load with
  | None => None
  | Some ws =>
      let widths := map (fun col => (col, column_width ws col)) (seq 1 (ws_max_column ws)) in
      let fills :=
        if 开启污染检查 then
          flat_map (fun row =>
                      if xl_eqb (ws_cell ws row 6) (XStr "未污染")
                      then map (fun c => (row, c)) (seq 1 (ws_max_column ws))
                      else [])
                   (seq 2 (ws_max_row ws - 1))
        else [] in
      Some {| st_rows := ws; st_widths := widths; st_fills := fills |}
  end.
End ExcelStyle.

(** ** A concrete environment, for the examples below *)

(** An MMDB where 8.8.x.x belongs to Google and everything else to another ISP. *)
Definition example_reader : mmdb_reader :=
  Some (fun ip => if prefix "8.8." ip
                  then Some [("autonomous_system_organization", "GOOGLE")]
                  else Some [("isp", "Example ISP")]).

Definition example_resolv_conf : option resolv_conf :=
  Some {| rc_nameservers := ["127.0.0.53"]; rc_search := []; rc_ndots := None;
          rc_rotate := false |}.

(** A resolver that answers every query with Google's address. *)
Definition google_net : nat -> Resolver -> string -> string -> resolve_result :=
  fun _ _ _ _ => Answers ["8.8.8.8"].

(** Every query takes 50 ms. *)
Definition clock_50ms : nat -> Q * Q := fun _ => (0, 1 # 20).

(** ** Specification-side notions *)

(** Round [i] of the verification passes: its query succeeds and every
    address classifies as Google. *)
Definition round_ok (reader : mmdb_reader) (sys : option resolv_conf)
  (round_net : nat -> Resolver -> string -> string -> resolve_result)
  (dns_server : string) (i : nat) : bool :=
  match 创建干净_resolver sys dns_server 3 with
  | Err _ => false
  | Ok resolver =>
      match round_net i resolver "google.com" "A" with
      | Answers ips => forallb (检查_google_ip reader) ips
      | Raised _ => false
      end
  end.

(** ** Lemmas on the verifier *)

(** Round 3 (index 2 of [range(5)]) answers an address outside Google. *)
Definition round3_bad_net : nat -> Resolver -> string -> string -> resolve_result :=
  fun i _ _ _ => if Nat.eqb i 2 then Answers ["6.6.6.6"] else Answers ["8.8.8.8"].

(** The latency of the [n]-th query, from the clock readings around it. *)
Definition query_latency (clock : nat -> Q * Q) (n : nat) : Q :=
  (snd (clock n) - fst (clock n)) * 1000.

Definition ok_of (o : bool * Q * list string) : bool := fst (fst o).
Definition lat_of (o : bool * Q * list string) : Q := snd (fst o).

(** The outcomes of the queries a benchmark run issues, one per domain, in
    order, when none of them is cut short. *)
Fixpoint query_outcomes (sys : option resolv_conf)
  (net : nat -> Resolver -> string -> string -> resolve_result) (clock : nat -> Q * Q)
  (dns_server rtype : string) (timeout_sec : Q) (domains : list string) (c : tl_cache) (n : nat)
  : list (bool * Q * list string) :=
  match domains with
  | [] => []
  | domain :: rest =>
      let '(c', o) := 执行_dns查询 sys (net (S n)) (fst (clock (S n))) (snd (clock (S n)))
                        c domain dns_server rtype timeout_sec in
      o :: query_outcomes sys net clock dns_server rtype timeout_sec rest c' (S n)
  end.

(** The only domain query takes 2 ms. *)
Definition clock_2ms : nat -> Q * Q := fun _ => (0, 1 # 500).

(** The second query of a run times out, the others answer Google. *)
Definition second_query_fails_net : nat -> Resolver -> string -> string -> resolve_result :=
  fun n _ _ _ => if Nat.eqb n 2 then Raised (DNSException "Timeout") else Answers ["8.8.8.8"].

(** The call inside the [try] of [执行_dns查询] raises: either getting the
    resolver raises, or [resolve] does. *)
Definition call_raises (sys : option resolv_conf) (net : Resolver -> string -> string -> resolve_result)
  (c : tl_cache) (domain server rtype : string) (t : Q) : Prop :=
  match 获取_resolver sys c server t with
  | Ok (_, r) => exists e, net r domain rtype = Raised e
  | Err _ => True
  end.

(** Every entry of a thread-local dict was built by [获取_resolver] for its key. *)
Definition cache_wf (c : tl_cache) : Prop :=
  Forall (fun e => nameservers (snd e) = [fst (fst e)] /\ timeout (snd e) = snd (fst e) /\
                   lifetime (snd e) = snd (fst e) /\ cache (snd e) = None) c.

(** The system configuration used below: the same as [example_resolv_conf]
    with [options rotate]. *)
Definition rotate_resolv_conf : option resolv_conf :=
  Some {| rc_nameservers := ["127.0.0.53"]; rc_search := []; rc_ndots := None;
          rc_rotate := true |}.

(** [main]'s scope with the assignment on line 281 restored. *)
Definition flagged_scope : scope := ("开启污染检查", VInt 1) :: main_scope.

(** 8.8.8.8 answers in 50 ms, every other candidate in 30 ms. *)
Definition two_clock : string -> nat -> Q * Q :=
  fun d => if String.eqb d "8.8.8.8" then clock_50ms else (fun _ => (0, 3 # 100)).

(** In the verification rounds 8.8.8.8 answers Google's address, every
    other candidate an address outside Google. *)
Definition two_round_net : string -> nat -> Resolver -> string -> string -> resolve_result :=
  fun d => if String.eqb d "8.8.8.8" then google_net else (fun _ _ _ _ => Answers ["1.2.3.4"]).

(** [ipaddress.ip_address] on the addresses of the examples below. *)
Definition example_ip_version4 (s : string) : option bool :=
  if (String.eqb s "8.8.8.8" || String.eqb s "1.1.1.1")%bool then Some true
  else if String.eqb s "2001:4860:4860::8888" then Some false
  else None.

(** A server answering the URL with a list: a comment line, a Windows line
    with two addresses, a line without an address, an IPv6 line. *)
Definition example_get (url : string) : http_outcome :=
  Response {| status_code := 200;
              resp_text := ("# public resolvers" ++ String "010" "" ++
                            " 8.8.8.8 1.1.1.1" ++ String "013" (String "010" "") ++
                            "unknown" ++ String "010" "" ++
                            "2001:4860:4860::8888" ++ String "010" "")%string |}.


(** A string with no space character. *)
Definition no_space (k : string) : Prop := forall c, In c (list_ascii_of_string k) -> c <> " "%char.

(** A string with no Python whitespace. *)
Definition no_ws (w : string) : Prop :=
  forall c, In c (list_ascii_of_string w) -> py_isspace c = false.

(** The verdict a candidate's record receives. *)
Definition verdict_of (verify : string -> list string -> result 污染状态) (r : bench_record) : 污染状态 :=
  match verify (dns_server r) (google_ips r) with Ok v => v | Err _ => 已污染 end.

Definition after_verification (verify : string -> list string -> result 污染状态)
  (r : bench_record) : bench_record :=
  if String.eqb (label (dns污染 r)) "待检测" then set_dns污染 (verdict_of verify r) r else r.

(** The order the spec states for the report: success rate descending, then
    average latency ascending, then Clean ahead of every other label. *)
Definition claim_before (a b : bench_record) : Prop :=
  成功率 b < 成功率 a \/
  (成功率 a == 成功率 b /\
   (平均延迟_ms a < 平均延迟_ms b \/
    (平均延迟_ms a == 平均延迟_ms b /\ (dns污染 b = 未污染 -> dns污染 a = 未污染)))).

(** What the runner's records satisfy when the flag is set. *)
Definition bench_inv (r : bench_record) : Prop :=
  (dns污染 r = 待检测 /\ threshold_04 < 成功率 r) \/
  (dns污染 r = 未测试 /\ ~ threshold_04 < 成功率 r).

(** What the records of the report satisfy once both phases ran. *)
Definition report_inv (r : bench_record) : Prop :=
  ((dns污染 r = 未污染 \/ dns污染 r = 已污染) /\ threshold_04 < 成功率 r) \/
  (dns污染 r = 未测试 /\ ~ threshold_04 < 成功率 r).

Definition report_keys : list (string * bool) :=
  combine ["成功率"; "平均延迟_ms"; "dns污染"] [false; true; false].

Lemma 创建干净_resolver_ok (sys : option resolv_conf) (s : string) (t : Q) :
  创建干净_resolver sys s t =
  Ok (set_cache None (set_lifetime t (set_timeout t (set_nameservers [s] Resolver_reset)))).
Proof. reflexivity. Qed.

Lemma verify_rounds_clean_iff reader sys round_net server m :
  forall j c log,
  fst (verify_rounds reader sys round_net server (seq j m) c log) = Ok 未污染 <->
  (c + m = 5 /\ forall i, j <= i < j + m -> round_ok reader sys round_net server i = true)%nat.
Proof.
  induction m as [|m IH]; intros j c log.
  - simpl. rewrite Nat.add_0_r. split.
    + intros H. destruct (Nat.eqb_spec c 5); [split; [assumption | intros; lia] | discriminate].
    + intros [-> _]. reflexivity.
  - cbn [seq verify_rounds]. rewrite 创建干净_resolver_ok.
    unfold round_ok at 1 in IH.
    assert (Hj : round_ok reader sys round_net server j =
                 match round_net j (set_cache None (set_lifetime 3 (set_timeout 3
                          (set_nameservers [server] Resolver_reset)))) "google.com" "A" with
                 | Answers ips => forallb (检查_google_ip reader) ips
                 | Raised _ => false end) by reflexivity.
    destruct (round_net j _ "google.com" "A") as [ips|e] eqn:Hn.
    + destruct (forallb (检查_google_ip reader) ips) eqn:Hf.
      * rewrite IH. split.
        -- intros [Hc Hall]. split; [lia|]. intros i Hi.
           destruct (Nat.eq_dec i j) as [->|Hne]; [rewrite Hj; reflexivity|].
           apply Hall; lia.
        -- intros [Hc Hall]. split; [lia|]. intros i Hi. apply Hall; lia.
      * simpl. split; [discriminate|]. intros [_ Hall].
        rewrite Hall in Hj; [discriminate | lia].
    + simpl. split; [discriminate|]. intros [_ Hall].
      rewrite Hall in Hj; [discriminate | lia].
Qed.

Lemma verify_rounds_first_fail reader sys round_net server m :
  forall j c log f,
  (j <= f < j + m)%nat ->
  (forall i, j <= i < f -> round_ok reader sys round_net server i = true)%nat ->
  round_ok reader sys round_net server f = false ->
  verify_rounds reader sys round_net server (seq j m) c log =
  (Ok 已污染, (log ++ seq (S j) (S (f - j)))%list).
Proof.
  induction m as [|m IH]; intros j c log f Hf Hbefore Hfail; [lia|].
  cbn [seq verify_rounds]. rewrite 创建干净_resolver_ok.
  assert (Hj : round_ok reader sys round_net server j =
               match round_net j (set_cache None (set_lifetime 3 (set_timeout 3
                        (set_nameservers [server] Resolver_reset)))) "google.com" "A" with
               | Answers ips => forallb (检查_google_ip reader) ips
               | Raised _ => false end) by reflexivity.
  destruct (Nat.eq_dec f j) as [->|Hne].
  - rewrite Nat.sub_diag. rewrite Hfail in Hj.
    destruct (round_net j _ "google.com" "A") as [ips|e].
    + rewrite <- Hj. reflexivity.
    + reflexivity.
  - assert (Hok : round_ok reader sys round_net server j = true) by (apply Hbefore; lia).
    rewrite Hok in Hj.
    destruct (round_net j _ "google.com" "A") as [ips|e]; [|discriminate].
    rewrite <- Hj. rewrite (IH (S j) (S c) (log ++ [S j])%list f); [| lia | | exact Hfail].
    + rewrite <- app_assoc. f_equal. f_equal.
      replace (f - j)%nat with (S (f - S j)) by lia. reflexivity.
    + intros i Hi. apply Hbefore; lia.
Qed.

Lemma verify_rounds_log_prefix reader sys round_net server todo :
  forall c log, exists ext,
  snd (verify_rounds reader sys round_net server todo c log) = (log ++ ext)%list.
Proof.
  induction todo as [|i todo IH]; intros c log; cbn [verify_rounds].
  - exists []. rewrite app_nil_r. reflexivity.
  - rewrite 创建干净_resolver_ok.
    destruct (round_net i _ "google.com" "A") as [ips|e].
    + destruct (forallb (检查_google_ip reader) ips).
      * destruct (IH (S c) (log ++ [S i])%list) as [ext Hext].
        exists (S i :: ext). rewrite Hext, <- app_assoc. reflexivity.
      * exists [S i]. reflexivity.
    + exists [S i]. reflexivity.
Qed.

Lemma verify_rounds_ok reader sys round_net server todo :
  forall c log,
  fst (verify_rounds reader sys round_net server todo c log) = Ok 未污染 \/
  fst (verify_rounds reader sys round_net server todo c log) = Ok 已污染.
Proof.
  induction todo as [|i todo IH]; intros c log; cbn [verify_rounds].
  - cbn [fst]. destruct (Nat.eqb c 5); [left | right]; reflexivity.
  - rewrite 创建干净_resolver_ok.
    destruct (round_net i _ "google.com" "A") as [ips|e]; [|right; reflexivity].
    destruct (forallb (检查_google_ip reader) ips); [apply IH | right; reflexivity].
Qed.

Lemma forallb_false_exists {A} (f : A -> bool) l :
  forallb f l = false -> exists x, In x l /\ f x = false.
Proof.
  induction l as [|x l IH]; cbn; [discriminate|].
  destruct (f x) eqn:E; cbn.
  - intros H. destruct (IH H) as (y & Hy & Hf). exists y. split; [right; exact Hy | exact Hf].
  - intros _. exists x. split; [left; reflexivity | exact E].
Qed.

(** ** C1: the verifier on an empty baseline list *)

(** C1 (counterexample): with an empty baseline list and a resolver whose five
    rounds all answer Google's address, the verifier does not return Polluted
    without rounds: it issues rounds 1..5 and returns Clean. *)
Lemma C1_empty_baseline_counterexample :
  let res := 终极污染检测 example_reader example_resolv_conf google_net "8.8.8.8" [] in
  res = (Ok 未污染, [1; 2; 3; 4; 5]%nat) /\ ~ (fst res = Ok 已污染 /\ snd res = []).
Proof.
  vm_compute. split; [reflexivity|]. intros [H _]. discriminate.
Qed.

(** C1 (amended): with an empty baseline list no baseline address is
    classified; the verifier always issues round 1, returns Clean exactly
    when all five rounds pass, and Polluted otherwise (exactly when some
    round fails). *)
Theorem C1_empty_baseline_goes_to_rounds reader sys round_net server :
  let res := 终极污染检测 reader sys round_net server [] in
  (exists rest, snd res = (1 :: rest)%nat) /\
  (fst res = Ok 未污染 <->
   forall i, (i < 5)%nat -> round_ok reader sys round_net server i = true) /\
  (fst res = Ok 已污染 <->
   exists i, (i < 5)%nat /\ round_ok reader sys round_net server i = false).
Proof.
  cbv zeta. unfold 终极污染检测. cbn [firstn baseline_check].
  pose proof (verify_rounds_clean_iff reader sys round_net server 5 0 0 []) as Hclean.
  cbn [Nat.add] in Hclean. split; [|split].
  - cbn [seq verify_rounds]. rewrite 创建干净_resolver_ok.
    destruct (round_net 0%nat _ "google.com" "A") as [ips|e].
    + destruct (forallb (检查_google_ip reader) ips).
      * destruct (verify_rounds_log_prefix reader sys round_net server (seq 1 4) 1%nat [1%nat])
          as [ext Hext].
        exists ext. exact Hext.
      * exists []. reflexivity.
    + exists []. reflexivity.
  - rewrite Hclean. split.
    + intros [_ Hall] i Hi. apply Hall. lia.
    + intros Hall. split; [reflexivity|]. intros i Hi. apply Hall. lia.
  - split.
    + intros Hp.
      destruct (forallb (round_ok reader sys round_net server) (seq 0 5)) eqn:Hf.
      * exfalso. assert (Hc : fst (verify_rounds reader sys round_net server (seq 0 5) 0 [])
                              = Ok 未污染).
        { apply Hclean. split; [reflexivity|]. intros i Hi.
          rewrite forallb_forall in Hf. apply Hf, in_seq. lia. }
        rewrite Hp in Hc. discriminate.
      * destruct (forallb_false_exists _ _ Hf) as (i & Hi & Hfi). apply in_seq in Hi.
        exists i. split; [lia | exact Hfi].
    + intros (i & Hi & Hfi).
      destruct (verify_rounds_ok reader sys round_net server (seq 0 5) 0 []) as [Hc|Hp];
        [|exact Hp].
      apply Hclean in Hc as [_ Hall]. rewrite Hall in Hfi; [discriminate | lia].
Qed.

(** ** C2: the verdict and the short-circuit of the five rounds *)

(** C2: the verdict is Clean iff the baseline check (the first three
    baseline addresses classify as Google) passes and all five rounds pass;
    when round [k] is the first to fail, the verdict is Polluted and the log
    of issued rounds is exactly 1..k, so rounds k+1..5 never run. *)
Theorem C2_clean_iff_all_rounds_pass reader sys round_net server ips :
  (fst (终极污染检测 reader sys round_net server ips) = Ok 未污染 <->
   baseline_check reader (firstn 3 ips) = true /\
   forall i, (i < 5)%nat -> round_ok reader sys round_net server i = true) /\
  (forall k, (1 <= k <= 5)%nat ->
   baseline_check reader (firstn 3 ips) = true ->
   (forall i, (i < k - 1)%nat -> round_ok reader sys round_net server i = true) ->
   round_ok reader sys round_net server (k - 1) = false ->
   终极污染检测 reader sys round_net server ips = (Ok 已污染, seq 1 k)).
Proof.
  unfold 终极污染检测. split.
  - destruct (baseline_check reader (firstn 3 ips)).
    + rewrite (verify_rounds_clean_iff reader sys round_net server 5 0 0 []). split.
      * intros [_ Hall]. split; [reflexivity|]. intros i Hi. apply Hall. lia.
      * intros [_ Hall]. split; [reflexivity|]. intros i Hi. apply Hall. lia.
    + split; [discriminate | intros [H _]; discriminate].
  - intros k Hk Hb Hbefore Hfail. rewrite Hb.
    rewrite (verify_rounds_first_fail reader sys round_net server 5 0 0 [] (k - 1));
      [| lia | intros i Hi; apply Hbefore; lia | exact Hfail].
    replace (S (k - 1 - 0)) with k by lia. reflexivity.
Qed.

(** C2 at the spec's scenario: round 3 of 5 answers an address outside
    Google; the verdict is Polluted and only rounds 1..3 were issued. *)
Lemma C2_witness :
  终极污染检测 example_reader example_resolv_conf round3_bad_net "8.8.8.8" ["8.8.8.8"] =
  (Ok 已污染, [1; 2; 3]%nat).
Proof.
  apply (proj2 (C2_clean_iff_all_rounds_pass example_reader example_resolv_conf
                  round3_bad_net "8.8.8.8" ["8.8.8.8"]) 3%nat).
  - lia.
  - reflexivity.
  - intros i Hi. destruct i as [|[|i]]; [reflexivity | reflexivity | lia].
  - reflexivity.
Defined.

(** ** Lemmas on the Query Executor and the Benchmark Runner *)

Lemma 执行_dns查询_latency sys net start stop c domain server rtype t :
  exists c' ok ips,
  执行_dns查询 sys net start stop c domain server rtype t = (c', (ok, (stop - start) * 1000, ips)).
Proof.
  unfold 执行_dns查询.
  destruct (获取_resolver sys c server t) as [[c' r]|e].
  - destruct (net r domain rtype) as [a|e].
    + exists c', true, a. reflexivity.
    + exists c', false, []. reflexivity.
  - exists c, false, []. reflexivity.
Qed.

Lemma bench_loop_abort sys net clock server ip_mode v4 t thr k domains :
  forall c st,
  (总次数 st < k <= 总次数 st + length domains)%nat ->
  Qltb (query_latency clock k) thr = true ->
  snd (bench_loop sys net clock server ip_mode v4 t thr domains c st) = None.
Proof.
  induction domains as [|d rest IH]; intros c st Hk Hlat; cbn [length] in Hk; [lia|].
  cbn [bench_loop].
  destruct (执行_dns查询_latency sys (net (S (总次数 st))) (fst (clock (S (总次数 st))))
              (snd (clock (S (总次数 st)))) c d server (record_type ip_mode v4) t)
    as (c' & ok & ips & He).
  rewrite He.
  destruct (Qltb ((snd (clock (S (总次数 st))) - fst (clock (S (总次数 st)))) * 1000) thr)
    eqn:Hq; [reflexivity|].
  destruct (Nat.eq_dec k (S (总次数 st))) as [->|Hne].
  - unfold query_latency in Hlat. rewrite Hlat in Hq. discriminate.
  - apply IH; [cbn; lia | exact Hlat].
Qed.

Lemma query_outcomes_length sys net clock server rtype t domains :
  forall c n, length (query_outcomes sys net clock server rtype t domains c n) = length domains.
Proof.
  induction domains as [|d rest IH]; intros c n; cbn [query_outcomes length]; [reflexivity|].
  destruct (执行_dns查询 _ _ _ _ _ _ _ _ _) as [c' o]. cbn [length]. rewrite IH. reflexivity.
Qed.

Lemma bench_loop_complete sys net clock server ip_mode v4 t thr domains :
  forall c st,
  let outs := query_outcomes sys net clock server (record_type ip_mode v4) t domains c (总次数 st) in
  Forall (fun o => Qltb (lat_of o) thr = false) outs ->
  exists c' st',
    bench_loop sys net clock server ip_mode v4 t thr domains c st = (c', Some st') /\
    总次数 st' = (总次数 st + length domains)%nat /\
    成功次数 st' = (成功次数 st + length (filter ok_of outs))%nat /\
    延迟列表 st' = (延迟列表 st ++ map lat_of (filter ok_of outs))%list.
Proof.
  induction domains as [|d rest IH]; intros c st outs Hall; subst outs.
  - exists c, st. cbn. rewrite !Nat.add_0_r, app_nil_r. auto.
  - cbn [query_outcomes bench_loop] in *.
    destruct (执行_dns查询_latency sys (net (S (总次数 st))) (fst (clock (S (总次数 st))))
                (snd (clock (S (总次数 st)))) c d server (record_type ip_mode v4) t)
      as (c' & ok & ips & He).
    rewrite He in *. inversion Hall as [|o os Hhd Htl]; subst.
    cbn [lat_of fst snd] in Hhd. rewrite Hhd.
    set (st1 := {| 总次数 := S (总次数 st);
                   成功次数 := if ok then S (成功次数 st) else 成功次数 st;
                   延迟列表 := if ok then (延迟列表 st ++ [(snd (clock (S (总次数 st))) -
                                  fst (clock (S (总次数 st)))) * 1000])%list else 延迟列表 st;
                   domain_ips := dict_set d ips (domain_ips st) |}).
    destruct (IH c' st1 Htl) as (c'' & st' & Hb & Ht & Hs & Hl).
    exists c'', st'. split; [exact Hb|]. subst st1. cbn [总次数 成功次数 延迟列表] in Ht, Hs, Hl.
    cbn [length filter ok_of fst].
    destruct ok; cbn [length map lat_of fst snd]; repeat split; try lia.
    + rewrite Hl, <- app_assoc. reflexivity.
    + rewrite Hl. reflexivity.
Qed.

Lemma Qltb_spec (x y : Q) : Qltb x y = true <-> x < y.
Proof.
  unfold Qltb. rewrite negb_true_iff. split.
  - intros H. apply Qnot_le_lt. intros Hle. apply Qle_bool_iff in Hle. congruence.
  - intros H. destruct (Qle_bool y x) eqn:E; [|reflexivity].
    apply Qle_bool_iff in E. exfalso. exact (Qlt_not_le _ _ H E).
Qed.

(** ** C4: early abort on an implausibly fast query *)

(** C4: if the [k]-th query of a run (for any [k] up to the number of
    domains, successful or not) takes less than [延迟下限_ms], the runner
    returns [None]. *)
Theorem C4_fast_query_disqualifies sys net clock ip_version4 c server domains ip_mode t thr flag k
  (Hk : (1 <= k <= length domains)%nat)
  (Hfast : query_latency clock k < thr) :
  snd (测试单个dns sys net clock ip_version4 c server domains ip_mode t thr flag) = None.
Proof.
  unfold 测试单个dns.
  pose proof (bench_loop_abort sys net clock server ip_mode
                (match ip_version4 server with Some b => b | None => true end) t thr k domains c
                run_init) as H.
  cbn [总次数 run_init] in H.
  destruct (bench_loop _ _ _ _ _ _ _ _ _ _ _) as [c' [st|]]; [|reflexivity].
  cbn [snd] in H. discriminate H; [lia | apply Qltb_spec; exact Hfast].
Qed.

(** C4 at the spec's scenario: the only query answers in 2 ms, the bound is
    10 ms: no record. *)
Lemma C4_witness :
  snd (测试单个dns example_resolv_conf google_net clock_2ms (fun _ => Some true) [] "8.8.8.8"
         ["google.com"] "4" (3 # 10) 10 true) = None.
Proof.
  apply (C4_fast_query_disqualifies example_resolv_conf google_net clock_2ms (fun _ => Some true)
           [] "8.8.8.8" ["google.com"] "4" (3 # 10) 10 true 1).
  - cbn. lia.
  - reflexivity.
Defined.

(** ** C5: statistics of a completed run *)

(** C5: when no query of the run is below [延迟下限_ms] (the run completes),
    the runner returns [None] when no query succeeded, and otherwise a record
    whose success rate is the number of successful queries over the number of
    domains, and whose average, minimum and maximum latency are taken over
    the latencies of the successful queries only. *)
Theorem C5_completed_run_statistics sys net clock ip_version4 c server domains ip_mode t thr flag :
  let v4 := match ip_version4 server with Some b => b | None => true end in
  let outs := query_outcomes sys net clock server (record_type ip_mode v4) t domains c 0 in
  let L := map lat_of (filter ok_of outs) in
  Forall (fun o => Qltb (lat_of o) thr = false) outs ->
  match snd (测试单个dns sys net clock ip_version4 c server domains ip_mode t thr flag), L with
  | None, [] => True
  | Some r, first :: rest =>
      成功率 r = Q_of_nat (length (filter ok_of outs)) / Q_of_nat (length domains) /\
      平均延迟_ms r = py_sum L / Q_of_nat (length L) /\
      最小延迟_ms r = py_min first rest /\
      最大延迟_ms r = py_max first rest
  | _, _ => False
  end.
Proof.
  cbv zeta. intros Hall. unfold 测试单个dns.
  destruct (bench_loop_complete sys net clock server ip_mode
              (match ip_version4 server with Some b => b | None => true end) t thr domains c
              run_init Hall) as (c' & st' & Hb & Ht & Hs & Hl).
  rewrite Hb. cbn [总次数 成功次数 延迟列表 run_init app] in Ht, Hs, Hl. rewrite Hl.
  pose proof (query_outcomes_length sys net clock server
                (record_type ip_mode (match ip_version4 server with Some b => b | None => true end))
                t domains c 0) as Hlen.
  destruct (map lat_of (filter ok_of _)) as [|first rest] eqn:HL; [exact I|].
  assert (Hpos : (0 < length domains)%nat).
  { rewrite <- Hlen.
    destruct (query_outcomes _ _ _ _ _ _ _ _ _); [discriminate HL | cbn; lia]. }
  rewrite Ht, Hs, !Nat.add_0_l.
  destruct (Nat.eqb_spec (length domains) 0) as [E|_]; [lia|].
  repeat split; reflexivity.
Qed.

(** C5 on a run of three domains whose second query times out: the run
    completes, and the record's statistics are those of the two successful
    queries. *)
Lemma C5_witness :
  let outs := query_outcomes example_resolv_conf second_query_fails_net clock_50ms "8.8.8.8"
                (record_type "4" true) (3 # 10) (firstn 3 TEST_DOMAINS) [] 0 in
  let L := map lat_of (filter ok_of outs) in
  Forall (fun o => Qltb (lat_of o) 10 = false) outs /\
  match snd (测试单个dns example_resolv_conf second_query_fails_net clock_50ms (fun _ => Some true)
               [] "8.8.8.8" (firstn 3 TEST_DOMAINS) "4" (3 # 10) 10 true), L with
  | None, [] => True
  | Some r, first :: rest =>
      成功率 r = Q_of_nat (length (filter ok_of outs)) / Q_of_nat (length (firstn 3 TEST_DOMAINS)) /\
      平均延迟_ms r = py_sum L / Q_of_nat (length L) /\
      最小延迟_ms r = py_min first rest /\
      最大延迟_ms r = py_max first rest
  | _, _ => False
  end.
Proof.
  cbv zeta. split.
  - vm_compute. repeat constructor.
  - apply (C5_completed_run_statistics example_resolv_conf second_query_fails_net clock_50ms
             (fun _ => Some true) [] "8.8.8.8" (firstn 3 TEST_DOMAINS) "4" (3 # 10) 10 true).
    vm_compute. repeat constructor.
Defined.

(** ** C6: the label a benchmark record leaves the runner with *)

Lemma 测试单个dns_record sys net clock ip_version4 c server domains ip_mode t thr flag r :
  snd (测试单个dns sys net clock ip_version4 c server domains ip_mode t thr flag) = Some r ->
  dns污染 r = (if flag && Qltb threshold_04 (成功率 r) then 待检测 else 未测试).
Proof.
  unfold 测试单个dns.
  destruct (bench_loop _ _ _ _ _ _ _ _ _ _ _) as [c' [st|]]; [|discriminate].
  destruct (延迟列表 st) as [|first rest]; [discriminate|].
  destruct (Nat.eqb (总次数 st) 0); [discriminate|].
  intros H. injection H as <-. reflexivity.
Qed.

(** C6 (counterexample): called with the verification flag off, the runner
    produces a record with success rate 1 > 0.4 whose label is Unverified,
    not PendingVerification. *)
Lemma C6_flag_off_counterexample :
  match snd (测试单个dns example_resolv_conf google_net clock_50ms (fun _ => Some true) []
               "8.8.8.8" ["google.com"] "4" (3 # 10) 10 false) with
  | Some r => threshold_04 < 成功率 r /\ dns污染 r = 未测试 /\ dns污染 r <> 待检测
  | None => False
  end.
Proof.
  vm_compute. split; [reflexivity|]. split; [reflexivity | discriminate].
Qed.

(** C6 (amended): a record produced by the runner is labelled
    PendingVerification iff the verification flag passed to it is set and
    its success rate exceeds 0.4, and Unverified otherwise; [main] always
    passes the flag set ([pollute = 1]), so there it is PendingVerification
    iff the success rate exceeds 0.4. *)
Theorem C6_pending_iff_flag_and_rate sys net clock ip_version4 c server domains ip_mode t thr flag r
  (Hr : snd (测试单个dns sys net clock ip_version4 c server domains ip_mode t thr flag) = Some r) :
  (dns污染 r = 待检测 <-> flag = true /\ threshold_04 < 成功率 r) /\
  (dns污染 r <> 待检测 -> dns污染 r = 未测试) /\
  (flag = truthy (VInt 1) -> (dns污染 r = 待检测 <-> threshold_04 < 成功率 r)).
Proof.
  pose proof (测试单个dns_record _ _ _ _ _ _ _ _ _ _ _ r Hr) as H. rewrite H.
  destruct flag; cbn [andb truthy negb Z.eqb].
  - destruct (Qltb threshold_04 (成功率 r)) eqn:E.
    + apply Qltb_spec in E. repeat split; auto. congruence.
    + split; [split; [discriminate | intros [_ Hlt]; apply Qltb_spec in Hlt; congruence]|].
      split; [reflexivity|]. intros _. split; [discriminate|].
      intros Hlt. apply Qltb_spec in Hlt. congruence.
  - split; [split; [discriminate | intros [Hf _]; discriminate]|].
    split; [reflexivity|]. intros Hf. discriminate.
Qed.

(** C6 on [main]'s call: a run at 100% success is left PendingVerification. *)
Lemma C6_witness :
  match snd (测试单个dns example_resolv_conf google_net clock_50ms (fun _ => Some true) []
               "8.8.8.8" ["google.com"] "4" (3 # 10) 10 true) with
  | Some r => dns污染 r = 待检测 <-> threshold_04 < 成功率 r
  | None => False
  end.
Proof.
  destruct (snd (测试单个dns example_resolv_conf google_net clock_50ms (fun _ => Some true) []
               "8.8.8.8" ["google.com"] "4" (3 # 10) 10 true)) as [r|] eqn:E.
  - exact (proj2 (proj2 (C6_pending_iff_flag_and_rate _ _ _ _ _ _ _ _ _ _ _ r E)) eq_refl).
  - vm_compute in E. discriminate E.
Defined.

(** ** C9: failures of the Query Executor *)

(** C9: whatever exception the resolution raises, the executor returns
    [(False, elapsed, [])] with [elapsed] the time between the two clock
    readings; two networks raising different exceptions give the same
    result, so nothing of the exception reaches the caller. *)
Theorem C9_exception_folds_to_failure sys net1 net2 start stop c domain server rtype t
  (H1 : call_raises sys net1 c domain server rtype t)
  (H2 : call_raises sys net2 c domain server rtype t) :
  snd (执行_dns查询 sys net1 start stop c domain server rtype t) = (false, (stop - start) * 1000, []) /\
  执行_dns查询 sys net1 start stop c domain server rtype t =
  执行_dns查询 sys net2 start stop c domain server rtype t.
Proof.
  unfold call_raises in H1, H2. unfold 执行_dns查询.
  destruct (获取_resolver sys c server t) as [[c' r]|e].
  - destruct H1 as [e1 E1]. destruct H2 as [e2 E2]. rewrite E1, E2. split; reflexivity.
  - split; reflexivity.
Qed.

(** C9 with a timeout on one side and NXDOMAIN on the other. *)
Lemma C9_witness :
  snd (执行_dns查询 example_resolv_conf (fun _ _ _ => Raised (DNSException "Timeout")) 0 (3 # 10) []
         "google.com" "8.8.8.8" "A" (3 # 10)) = (false, ((3 # 10) - 0) * 1000, []) /\
  执行_dns查询 example_resolv_conf (fun _ _ _ => Raised (DNSException "Timeout")) 0 (3 # 10) []
    "google.com" "8.8.8.8" "A" (3 # 10) =
  执行_dns查询 example_resolv_conf (fun _ _ _ => Raised (DNSException "NXDOMAIN")) 0 (3 # 10) []
    "google.com" "8.8.8.8" "A" (3 # 10).
Proof.
  apply C9_exception_folds_to_failure; vm_compute; eexists; reflexivity.
Defined.

(** ** C10: the resolvers the code builds *)

Lemma tl_lookup_wf c s t r :
  cache_wf c -> tl_lookup (s, t) c = Some r ->
  nameservers r = [s] /\ timeout r == t /\ lifetime r == t /\ cache r = None.
Proof.
  induction c as [|[[s' t'] r'] c IH]; intros Hwf H; [discriminate|].
  inversion Hwf as [|e es He Hes]; subst. cbn [fst snd] in He. destruct He as (Hn & Ht & Hl & Hc).
  cbn [tl_lookup fst snd] in H.
  destruct (String.eqb s s') eqn:Es; destruct (Qeq_bool t t') eqn:Et; cbn [andb] in H;
    try (apply IH; assumption).
  injection H as <-. apply String.eqb_eq in Es. apply Qeq_bool_iff in Et. subst s'.
  rewrite Ht, Hl. repeat split; auto; symmetry; exact Et.
Qed.

Lemma Resolver_new_configured_cache sys r :
  Resolver_new sys true = Ok r -> cache r = None.
Proof.
  unfold Resolver_new, read_resolv_conf.
  destruct sys as [rc|]; [|discriminate].
  destruct (rc_nameservers rc); [discriminate|]. intros H. injection H as <-. reflexivity.
Qed.

(** C10 (counterexample): the benchmark path's resolver does not ignore the
    system configuration: without a readable [/etc/resolv.conf] building it
    raises (so every benchmark query fails), and [options rotate] in it
    changes the resolver; the verification path's resolver is built either way. *)
Lemma C10_benchmark_resolver_reads_system_config :
  获取_resolver None [] "8.8.8.8" (3 # 10) = Err NoResolverConfiguration /\
  获取_resolver None [] "8.8.8.8" (3 # 10) <> 获取_resolver example_resolv_conf [] "8.8.8.8" (3 # 10) /\
  获取_resolver rotate_resolv_conf [] "8.8.8.8" (3 # 10) <>
  获取_resolver example_resolv_conf [] "8.8.8.8" (3 # 10) /\
  创建干净_resolver None "8.8.8.8" (3 # 10) = 创建干净_resolver example_resolv_conf "8.8.8.8" (3 # 10).
Proof.
  vm_compute. split; [reflexivity|]. split; [discriminate|]. split; [|reflexivity].
  intros H. injection H. discriminate.
Qed.

(** C10 (amended): the verification path's resolver ([创建干净_resolver])
    does not depend on the system configuration, queries only the candidate,
    uses the value as timeout and lifetime and has caching disabled.  The
    benchmark path's resolver ([获取_resolver]) queries only the candidate,
    uses the value as timeout and lifetime and has no cache (the library's
    default), but is built from the system configuration: building it fails
    exactly when that configuration is unreadable or lists no nameserver, and
    it takes search list, ndots and rotate from it. *)
Theorem C10_resolver_factories sys1 sys2 c c' s t r
  (Hwf : cache_wf c)
  (Hget : 获取_resolver sys1 c s t = Ok (c', r)) :
  (创建干净_resolver sys1 s t = 创建干净_resolver sys2 s t /\
   exists r0, 创建干净_resolver sys1 s t = Ok r0 /\ nameservers r0 = [s] /\
              timeout r0 = t /\ lifetime r0 = t /\ cache r0 = None) /\
  (nameservers r = [s] /\ timeout r == t /\ lifetime r == t /\ cache r = None /\ cache_wf c') /\
  ((exists e, 获取_resolver sys2 [] s t = Err e) <->
   sys2 = None \/ exists rc, sys2 = Some rc /\ rc_nameservers rc = []) /\
  (forall rc, rc_nameservers rc <> [] ->
   exists r1, 获取_resolver (Some rc) [] s t = Ok ([((s, t), r1)], r1) /\
              search r1 = rc_search rc /\ ndots r1 = rc_ndots rc /\ rotate r1 = rc_rotate rc).
Proof.
  split; [split; [reflexivity | eexists; split; [reflexivity | repeat split]]|].
  split.
  - unfold 获取_resolver in Hget.
    destruct (tl_lookup (s, t) c) as [r0|] eqn:L.
    + injection Hget as <- <-. destruct (tl_lookup_wf c s t r0 Hwf L) as (? & ? & ? & ?).
      repeat split; assumption.
    + destruct (Resolver_new sys1 true) as [r1|e] eqn:Hn; [|discriminate].
      cbn [bind] in Hget. injection Hget as <- <-.
      pose proof (Resolver_new_configured_cache sys1 r1 Hn) as Hc.
      cbn. repeat split; try reflexivity; [exact Hc|].
      apply Forall_app. split; [exact Hwf|]. constructor; [|constructor].
      cbn. repeat split; exact Hc.
  - split.
    + unfold 获取_resolver, Resolver_new, read_resolv_conf. cbn [tl_lookup].
      destruct sys2 as [rc|]; split.
      * destruct (rc_nameservers rc) eqn:E; intros [e He]; cbn in He;
          [right; exists rc; split; [reflexivity | exact E] | discriminate].
      * intros [H|(rc' & H & E)]; [discriminate|]. injection H as <-. rewrite E.
        exists NoResolverConfiguration. reflexivity.
      * intros _. left. reflexivity.
      * intros _. exists NoResolverConfiguration. reflexivity.
    + intros rc Hne. unfold 获取_resolver, Resolver_new, read_resolv_conf. cbn [tl_lookup].
      destruct (rc_nameservers rc) eqn:E; [contradiction|].
      eexists. split; [reflexivity|]. repeat split.
Qed.

(** C10 on [main]'s first benchmark query to 8.8.8.8 with a 300 ms timeout. *)
Lemma C10_witness :
  let res := 获取_resolver example_resolv_conf [] "8.8.8.8" (3 # 10) in
  match res with
  | Ok (c', r) =>
      cache_wf [] /\
      (nameservers r = ["8.8.8.8"] /\ timeout r == 3 # 10 /\ lifetime r == 3 # 10 /\
       cache r = None /\ cache_wf c')
  | Err _ => False
  end.
Proof.
  cbv zeta. destruct (获取_resolver example_resolv_conf [] "8.8.8.8" (3 # 10)) as [[c' r]|e] eqn:E.
  - split; [constructor|].
    exact (proj1 (proj2 (C10_resolver_factories example_resolv_conf example_resolv_conf [] c'
                           "8.8.8.8" (3 # 10) r (Forall_nil _) E))).
  - vm_compute in E. discriminate E.
Defined.

(** ** Lemmas on the orchestration *)

Lemma label_pending_iff (s : 污染状态) : String.eqb (label s) "待检测" = true <-> s = 待检测.
Proof. destruct s; split; intros H; try reflexivity; discriminate. Qed.

Lemma update_at_app {A} (f : A -> A) (pre rs : list A) (x : A) :
  update_at (length pre) f (pre ++ x :: rs) = (pre ++ f x :: rs)%list.
Proof. induction pre as [|y pre IH]; cbn; [reflexivity | rewrite IH; reflexivity]. Qed.

(** Writing through the candidates' positions updates every pending record
    of [结果列表] in place, and only those. *)
Lemma write_verdicts_pending verify rs :
  forall pre,
  write_verdicts verify (pending_positions (length pre) rs) (pre ++ rs) =
  (pre ++ map (after_verification verify) rs)%list.
Proof.
  set (f := fun r => set_dns污染 (verdict_of verify r) r).
  assert (Hw : forall P store, write_verdicts verify P store =
                               fold_left (fun store i => update_at i f store) P store)
    by reflexivity.
  induction rs as [|x rs IH]; intros pre; rewrite Hw; cbn [pending_positions map].
  - reflexivity.
  - unfold after_verification at 1.
    destruct (String.eqb (label (dns污染 x)) "待检测").
    + cbn [fold_left]. rewrite update_at_app.
      replace (pre ++ f x :: rs)%list with ((pre ++ [f x]) ++ rs)%list
        by (rewrite <- app_assoc; reflexivity).
      replace (S (length pre)) with (length (pre ++ [f x]))
        by (rewrite length_app; cbn; lia).
      pose proof (IH (pre ++ [f x])%list) as IH'. rewrite Hw in IH'.
      rewrite IH', <- app_assoc. reflexivity.
    + replace (pre ++ x :: rs)%list with ((pre ++ [x]) ++ rs)%list
        by (rewrite <- app_assoc; reflexivity).
      replace (S (length pre)) with (length (pre ++ [x])) by (rewrite length_app; cbn; lia).
      pose proof (IH (pre ++ [x])%list) as IH'. rewrite Hw in IH'.
      rewrite IH', <- app_assoc. reflexivity.
Qed.

Lemma pending_positions_nil rs :
  forall k, pending_positions k rs = [] -> map (after_verification (fun _ _ => Ok 已污染)) rs = rs /\
  Forall (fun r => dns污染 r <> 待检测) rs.
Proof.
  induction rs as [|x rs IH]; intros k H; cbn in *; [split; [reflexivity | constructor]|].
  unfold after_verification at 1.
  destruct (String.eqb (label (dns污染 x)) "待检测") eqn:E; [discriminate|].
  destruct (IH (S k) H) as [Hm Hf]. rewrite Hm. split; [reflexivity|].
  constructor; [|exact Hf]. intros Hp. apply label_pending_iff in Hp. congruence.
Qed.

Lemma after_verification_id verify rs :
  Forall (fun r => dns污染 r <> 待检测) rs -> map (after_verification verify) rs = rs.
Proof.
  induction 1 as [|x rs Hx _ IH]; [reflexivity|]. cbn. rewrite IH.
  unfold after_verification.
  destruct (String.eqb (label (dns污染 x)) "待检测") eqn:E; [|reflexivity].
  apply label_pending_iff in E. contradiction.
Qed.

Lemma verification_phase_map verify threads rs rs' :
  verification_phase verify threads rs = Ok rs' -> rs' = map (after_verification verify) rs.
Proof.
  unfold verification_phase. destruct (pending_positions 0 rs) as [|i is] eqn:P.
  - intros H. injection H as <-.
    destruct (pending_positions_nil rs 0 P) as [_ Hf].
    symmetry. exact (after_verification_id verify rs Hf).
  - unfold bind. destruct (ThreadPoolExecutor (threads / 4)); [|discriminate].
    intros H.
    assert (X : write_verdicts verify (pending_positions 0 rs) rs = rs')
      by (rewrite P; injection H; intros E; exact E).
    rewrite <- X. exact (write_verdicts_pending verify rs []).
Qed.

Lemma insert_by_in {A} (cmp : A -> A -> comparison) x l y :
  In y (insert_by cmp x l) -> y = x \/ In y l.
Proof.
  induction l as [|z l IH]; cbn; [intros [H|[]]; auto|].
  destruct (cmp x z); cbn; intros [H|H]; auto;
    try (destruct H; auto); destruct (IH H); auto.
Qed.

Lemma stable_sort_forall {A} (cmp : A -> A -> comparison) (P : A -> Prop) l :
  Forall P l -> Forall P (stable_sort cmp l).
Proof.
  unfold stable_sort. intros Hl. assert (Hacc : Forall P []) by constructor.
  revert Hacc. generalize (@nil A). induction Hl as [|x l Hx Hl IH]; intros acc Hacc; [exact Hacc|].
  cbn [fold_left]. apply IH. apply Forall_forall. intros y Hy.
  destruct (insert_by_in cmp x acc y Hy) as [->|Hin]; [exact Hx|].
  exact (proj1 (Forall_forall P acc) Hacc y Hin).
Qed.

Lemma finalize_no_pending rs : Forall (fun r => dns污染 r <> 待检测) (finalize rs).
Proof.
  unfold finalize. apply Forall_map. apply Forall_forall. intros r _.
  destruct (String.eqb (label (dns污染 r)) "待检测") eqn:E; [discriminate|].
  intros Hp. apply label_pending_iff in Hp. congruence.
Qed.

Lemma cell_compare_antisym a b : cell_compare b a = CompOpp (cell_compare a b).
Proof.
  destruct a as [x|x], b as [y|y]; cbn; try reflexivity.
  - symmetry. apply Qcompare_antisym.
  - apply String.compare_antisym.
Qed.

Lemma sort_compare_antisym keys a b : sort_compare keys b a = CompOpp (sort_compare keys a b).
Proof.
  induction keys as [|[col asc] keys IH]; cbn; [reflexivity|].
  rewrite cell_compare_antisym.
  destruct (cell_compare (column col a) (column col b)); cbn; [exact IH | |];
    destruct asc; reflexivity.
Qed.

Section InsertionSort.
Context {A : Type} (cmp : A -> A -> comparison).
Hypothesis cmp_antisym : forall a b, cmp b a = CompOpp (cmp a b).

Let R := fun a b => cmp a b <> Gt.

Lemma HdRel_insert_by y x l : R y x -> HdRel R y l -> HdRel R y (insert_by cmp x l).
Proof.
  intros Hyx Hl. destruct l as [|z l]; cbn; [constructor; exact Hyx|].
  inversion Hl; subst. destruct (cmp x z); constructor; assumption.
Qed.

Lemma insert_by_sorted x l : Sorted R l -> Sorted R (insert_by cmp x l).
Proof.
  induction l as [|y l IH]; intros Hs; cbn; [constructor; constructor|].
  destruct (cmp x y) eqn:E.
  - apply Sorted_inv in Hs as [Hs Hh]. constructor; [apply IH; exact Hs|].
    apply HdRel_insert_by; [|exact Hh]. unfold R. rewrite cmp_antisym, E. discriminate.
  - constructor; [exact Hs|]. constructor. unfold R. rewrite E. discriminate.
  - apply Sorted_inv in Hs as [Hs Hh]. constructor; [apply IH; exact Hs|].
    apply HdRel_insert_by; [|exact Hh]. unfold R. rewrite cmp_antisym, E. discriminate.
Qed.

Lemma stable_sort_sorted l : Sorted R (stable_sort cmp l).
Proof.
  unfold stable_sort. assert (Hacc : Sorted R []) by constructor.
  revert Hacc. generalize (@nil A).
  induction l as [|x l IH]; intros acc Hacc; cbn [fold_left]; [exact Hacc|].
  apply IH. apply insert_by_sorted. exact Hacc.
Qed.
End InsertionSort.

Lemma Sorted_mono {A} (P : A -> Prop) (R R' : A -> A -> Prop) l :
  (forall a b, P a -> P b -> R a b -> R' a b) -> Forall P l -> Sorted R l -> Sorted R' l.
Proof.
  intros HRR' HP Hs. induction Hs as [|a l Hs IH Hh]; [constructor|].
  inversion HP as [|a' l' Ha Hl]; subst. constructor; [apply IH; exact Hl|].
  destruct Hh as [|b l Hab]; constructor.
  inversion Hl; subst. apply HRR'; assumption.
Qed.

Lemma report_keys_compare a b :
  sort_compare report_keys a b =
  match Qcompare (成功率 a) (成功率 b) with
  | Eq => match Qcompare (平均延迟_ms a) (平均延迟_ms b) with
          | Eq => CompOpp (String.compare (label (dns污染 a)) (label (dns污染 b)))
          | c => c
          end
  | c => CompOpp c
  end.
Proof.
  unfold report_keys. cbn [combine sort_compare column String.eqb].
  reflexivity.
Qed.

Lemma report_order_claim a b :
  report_inv a -> report_inv b -> sort_compare report_keys a b <> Gt -> claim_before a b.
Proof.
  intros Ha Hb H. rewrite report_keys_compare in H. unfold claim_before. revert H.
  destruct (Qcompare_spec (成功率 a) (成功率 b)) as [Hr|Hr|Hr]; intros H.
  - right. split; [exact Hr|]. revert H.
    destruct (Qcompare_spec (平均延迟_ms a) (平均延迟_ms b)) as [Hl|Hl|Hl]; intros H.
    + right. split; [exact Hl|]. intros Hbc. rewrite Hbc in H.
      destruct Ha as [[[Ea|Ea] Hra]|[Ea Hra]]; rewrite Ea in *.
      * reflexivity.
      * exfalso. apply H. reflexivity.
      * exfalso. destruct Hb as [[_ Hrb]|[Eb _]]; [|congruence].
        apply Hra. rewrite Hr. exact Hrb.
    + left. exact Hl.
    + exfalso. apply H. reflexivity.
  - exfalso. apply H. reflexivity.
  - left. exact Hr.
Qed.

Lemma verify_rounds_verdict reader sys round_net server todo n log v :
  fst (verify_rounds reader sys round_net server todo n log) = Ok v -> v = 未污染 \/ v = 已污染.
Proof.
  revert n log. induction todo as [|i todo IH]; intros n log; cbn [verify_rounds].
  - cbn [fst]. intros H. injection H as <-. destruct (Nat.eqb n 5); [left|right]; reflexivity.
  - destruct (创建干净_resolver sys server 3) as [res|e]; cbn; [|intros H; discriminate].
    destruct (round_net i res "google.com" "A") as [ips|e].
    + destruct (forallb (检查_google_ip reader) ips); [apply IH|].
      cbn. intros H. injection H as <-. right. reflexivity.
    + cbn. intros H. injection H as <-. right. reflexivity.
Qed.

Lemma verify_main_verdict reader sys round_net r :
  verdict_of (verify_main reader sys round_net) r = 未污染 \/
  verdict_of (verify_main reader sys round_net) r = 已污染.
Proof.
  unfold verdict_of, verify_main, 终极污染检测.
  destruct (baseline_check _ _) eqn:B.
  - destruct (fst (verify_rounds _ _ _ _ _ _ _)) as [v|e] eqn:E; [|right; reflexivity].
    exact (verify_rounds_verdict _ _ _ _ _ _ _ v E).
  - right. reflexivity.
Qed.

Lemma benchmark_phase_inv sys ip_version4 net clock c dns_list test_domains ip_mode t md :
  Forall bench_inv (benchmark_phase sys ip_version4 net clock c dns_list test_domains ip_mode t md true).
Proof.
  revert c. induction dns_list as [|dns rest IH]; intros c; cbn; [constructor|].
  destruct (测试单个dns sys (net dns) (clock dns) ip_version4 c dns test_domains ip_mode t md true)
    as [c' [r|]] eqn:E; [|apply IH].
  constructor; [|apply IH].
  assert (Hr := 测试单个dns_record sys (net dns) (clock dns) ip_version4 c dns test_domains ip_mode t md true r).
  rewrite E in Hr. specialize (Hr eq_refl). cbn [andb] in Hr. unfold bench_inv.
  destruct (Qltb threshold_04 (成功率 r)) eqn:Q4; [left|right]; split; try assumption.
  - apply Qltb_spec. exact Q4.
  - intros Hlt. apply Qltb_spec in Hlt. congruence.
Qed.

Lemma report_inv_after verify r :
  (verdict_of verify r = 未污染 \/ verdict_of verify r = 已污染) ->
  bench_inv r ->
  report_inv (if String.eqb (label (dns污染 (after_verification verify r))) "待检测"
              then set_dns污染 未测试 (after_verification verify r)
              else after_verification verify r).
Proof.
  intros Hv [[Ep Hr]|[Eu Hr]]; unfold after_verification.
  - rewrite Ep. cbn -[report_inv verdict_of].
    destruct Hv as [Hv|Hv]; rewrite Hv; cbn -[report_inv];
      unfold report_inv; cbn [dns污染 成功率 set_dns污染]; left; split; auto.
  - rewrite Eu. cbn -[report_inv]. rewrite Eu. cbn -[report_inv].
    unfold report_inv. right. split; assumption.
Qed.

Lemma report_inv_all reader sys round_net rs :
  Forall bench_inv rs ->
  Forall report_inv (finalize (map (after_verification (verify_main reader sys round_net)) rs)).
Proof.
  intros Hrs. unfold finalize. rewrite map_map. apply Forall_map.
  apply (Forall_impl _ (fun r Hr => report_inv_after _ r (verify_main_verdict reader sys round_net r) Hr)).
  exact Hrs.
Qed.

(** ** Claims about the orchestration *)

(** C7: whenever the orchestration produces a report, no record in it is
    labelled PendingVerification: verified records carry the verifier's
    verdict and the remaining pending ones are finalised to Unverified. *)
Theorem C7_no_pending_in_report s verify threads 结果列表 report
  (H : orchestrate s verify threads 结果列表 = Ok report) :
  Forall (fun r => dns污染 r <> 待检测) report.
Proof.
  unfold orchestrate in H. destruct 结果列表 as [|r0 rs0]; [discriminate|].
  destruct (lookup "开启污染检查" s) as [flag|]; [|discriminate].
  unfold bind in H.
  destruct (if truthy flag then verification_phase verify threads (r0 :: rs0) else Ok (r0 :: rs0))
    as [rs'|e]; [|discriminate].
  unfold sort_values in H.
  destruct (Nat.eqb _ _); [|discriminate].
  injection H as <-. apply stable_sort_forall. apply finalize_no_pending.
Qed.

(** C8: every report [main] produces is ordered by success rate descending,
    then average latency ascending, then with Clean ahead of the other
    labels among records tying on both. *)
Theorem C8_report_sorted reader sys ip_version4 net clock round_net s dns_list ip_mode
  threads_in n_in min_delay timeout_ms report
  (H : main_run_in reader sys ip_version4 net clock round_net s dns_list ip_mode
         threads_in n_in min_delay timeout_ms = Ok report) :
  Sorted claim_before report.
Proof.
  unfold main_run_in in H. cbn [truthy Z.eqb negb] in H.
  pose proof (benchmark_phase_inv sys ip_version4 net clock [] dns_list
    (firstn (Z.to_nat (Z.max 1 (Z.min n_in (Z.of_nat (length TEST_DOMAINS))))) TEST_DOMAINS)
    ip_mode (timeout_ms / 1000) min_delay) as Hinv.
  revert H Hinv.
  generalize (benchmark_phase sys ip_version4 net clock [] dns_list
    (firstn (Z.to_nat (Z.max 1 (Z.min n_in (Z.of_nat (length TEST_DOMAINS))))) TEST_DOMAINS)
    ip_mode (timeout_ms / 1000) min_delay true) as rs.
  intros rs H Hinv.
  unfold orchestrate in H. destruct rs as [|r0 rs0]; [discriminate|].
  destruct (lookup "开启污染检查" s) as [flag|]; [|discriminate].
  unfold bind in H. destruct (truthy flag).
  - destruct (verification_phase _ _ (r0 :: rs0)) as [rs'|e] eqn:Hv; [|discriminate].
    apply verification_phase_map in Hv. subst rs'.
    unfold sort_values in H. cbn [app length Nat.eqb] in H.
    injection H as <-.
    apply (Sorted_mono report_inv (fun a b => sort_compare report_keys a b <> Gt)).
    + intros a b Ha Hb Hab. exact (report_order_claim a b Ha Hb Hab).
    + apply stable_sort_forall.
      change (Forall report_inv
        (finalize (map (after_verification (verify_main reader sys round_net)) (r0 :: rs0)))).
      apply report_inv_all. exact Hinv.
    + apply stable_sort_sorted. intros a b. exact (sort_compare_antisym report_keys a b).
  - unfold sort_values in H. cbn [app length Nat.eqb] in H. discriminate.
Qed.

Lemma C7_witness :
  let verify := verify_main example_reader example_resolv_conf two_round_net in
  let rs := [{| dns_server := "8.8.8.8"; 成功率 := 1; 平均延迟_ms := 50; 最小延迟_ms := 50;
                最大延迟_ms := 50; dns污染 := 待检测; google_ips := ["8.8.8.8"] |};
             {| dns_server := "1.1.1.1"; 成功率 := 1 # 3; 平均延迟_ms := 30; 最小延迟_ms := 30;
                最大延迟_ms := 30; dns污染 := 未测试; google_ips := [] |}] in
  let report := match orchestrate flagged_scope verify 64 rs with Ok r => r | Err _ => [] end in
  orchestrate flagged_scope verify 64 rs = Ok report /\
  Forall (fun r => dns污染 r <> 待检测) report.
Proof.
  intros verify rs report.
  assert (H : orchestrate flagged_scope verify 64 rs = Ok report) by (vm_compute; reflexivity).
  split; [exact H|]. exact (C7_no_pending_in_report flagged_scope verify 64 rs report H).
Defined.

Lemma C8_witness :
  let run := main_run_in example_reader example_resolv_conf (fun _ => Some true)
               (fun _ => google_net) two_clock two_round_net flagged_scope
               ["8.8.8.8"; "1.1.1.1"] "4" 64 3 10 300 in
  let report := match run with Ok r => r | Err _ => [] end in
  run = Ok report /\ map dns_server report = ["1.1.1.1"; "8.8.8.8"] /\ Sorted claim_before report.
Proof.
  intros run report.
  assert (H : run = Ok report) by (vm_compute; reflexivity).
  split; [exact H|]. split; [vm_compute; reflexivity|].
  exact (C8_report_sorted example_reader example_resolv_conf (fun _ => Some true)
           (fun _ => google_net) two_clock two_round_net flagged_scope
           ["8.8.8.8"; "1.1.1.1"] "4" 64 3 10 300 report H).
Defined.

(** C3 (theorem): [main] never reaches the report.  With no usable record it
    exits; with at least one it raises [NameError] on [开启污染检查], whose
    assignment on line 281 is commented out, whatever the candidates, the
    thread count, the domain count, the delay bound and the timeout. *)
Theorem C3_main_never_reports reader sys ip_version4 net clock round_net dns_list ip_mode
  threads_in n_in min_delay timeout_ms :
  main_run reader sys ip_version4 net clock round_net dns_list ip_mode
    threads_in n_in min_delay timeout_ms =
  match benchmark_phase sys ip_version4 net clock [] dns_list
          (firstn (Z.to_nat (Z.max 1 (Z.min n_in (Z.of_nat (length TEST_DOMAINS))))) TEST_DOMAINS)
          ip_mode (timeout_ms / 1000) min_delay true with
  | [] => Err (SystemExit 1)
  | _ => Err (NameError "开启污染检查")
  end.
Proof.
  unfold main_run, main_run_in. cbn [truthy Z.eqb negb].
  destruct (benchmark_phase _ _ _ _ _ _ _ _ _ _ _); reflexivity.
Qed.

(** C3 (failing input): one working candidate, 8.8.8.8, with the default
    64 threads, 3 domains, 10 ms delay bound and 300 ms timeout: the
    benchmark yields a record, and [main] then raises [NameError]. *)
Lemma C3_failing_run :
  benchmark_phase example_resolv_conf (fun _ => Some true) (fun _ => google_net)
    (fun _ => clock_50ms) [] ["8.8.8.8"] (firstn 3 TEST_DOMAINS) "4" (300 / 1000) 10 true <> [] /\
  main_run example_reader example_resolv_conf (fun _ => Some true) (fun _ => google_net)
    (fun _ => clock_50ms) (fun _ => google_net) ["8.8.8.8"] "4" 64 3 10 300 =
  Err (NameError "开启污染检查").
Proof.
  split; [vm_compute; discriminate | vm_compute; reflexivity].
Qed.

(** With the assignment restored, fewer than 4 threads still stop [main]:
    the verification pool gets [threads // 4 = 0] workers and raises. *)
Lemma few_threads_verification_pool :
  main_run_in example_reader example_resolv_conf (fun _ => Some true) (fun _ => google_net)
    two_clock two_round_net flagged_scope ["8.8.8.8"; "1.1.1.1"] "4" 2 3 10 300 =
  Err (ValueError "max_workers must be greater than 0").
Proof.
  vm_compute. reflexivity.
Qed.

(** ** Further properties of the code *)

(** *** Substrings *)

Lemma str_app_assoc (a b c : string) : ((a ++ b) ++ c)%string = (a ++ (b ++ c))%string.
Proof. induction a as [|x a IH]; cbn; [reflexivity|]. rewrite IH. reflexivity. Qed.

Lemma str_app_nil_r (a : string) : (a ++ "")%string = a.
Proof. induction a as [|x a IH]; cbn; [reflexivity|]. rewrite IH. reflexivity. Qed.

Lemma prefix_app k s : prefix k s = true <-> exists q, s = (k ++ q)%string.
Proof.
  revert s. induction k as [|x k IH]; intros s; cbn.
  - split; [intros _; exists s; reflexivity | destruct s; reflexivity].
  - destruct s as [|y s].
    + split; [discriminate | intros [q Hq]; discriminate].
    + cbn [prefix]. destruct (ascii_dec x y) as [->|Hne].
      * rewrite IH. split; intros [q Hq]; exists q; [rewrite Hq | injection Hq as Hq]; auto.
      * split; [discriminate | intros [q Hq]; injection Hq as Hxy _; congruence].
Qed.

Lemma contains_app k s : contains k s = true <-> exists p q, s = (p ++ k ++ q)%string.
Proof.
  induction s as [|y s IH]; cbn [contains].
  - rewrite orb_false_r, prefix_app. split.
    + intros [q Hq]. exists "", q. exact Hq.
    + intros (p & q & Hpq). destruct p; [exists q; exact Hpq | discriminate].
  - rewrite orb_true_iff, prefix_app, IH. split.
    + intros [[q Hq] | (p & q & Hpq)].
      * exists "", q. exact Hq.
      * exists (String y p), q. rewrite Hpq. reflexivity.
    + intros (p & q & Hpq). destruct p as [|z p].
      * left. exists q. exact Hpq.
      * right. injection Hpq as -> Hs. exists p, q. exact Hs.
Qed.

Lemma no_space_prefix k q a b :
  no_space k -> (k ++ q)%string = (a ++ String " " b)%string -> exists q', a = (k ++ q')%string.
Proof.
  revert a. induction k as [|x k IH]; intros a Hk H.
  - exists a. reflexivity.
  - destruct a as [|y a]; cbn in H; injection H as Hxy H.
    + exfalso. apply (Hk x); [left; reflexivity | exact Hxy].
    + subst y. destruct (IH a) as [q' ->]; [|exact H|].
      * intros c Hc. apply Hk. right. exact Hc.
      * exists q'. reflexivity.
Qed.

Lemma contains_sep k a b :
  no_space k -> contains k (a ++ String " " b) = true ->
  contains k a = true \/ contains k b = true.
Proof.
  intros Hk H. apply contains_app in H as (p & q & H). revert a H.
  induction p as [|x p IH]; intros a H; cbn in H.
  - destruct (no_space_prefix k q a b Hk (eq_sym H)) as [q' ->]. left.
    apply contains_app. exists "", q'. reflexivity.
  - destruct a as [|y a]; cbn in H; injection H as Hxy H.
    + right. apply contains_app. exists p, q. exact H.
    + destruct (IH a H) as [Ha|Hb]; [left|right; exact Hb].
      apply contains_app in Ha as (p' & q' & ->). apply contains_app.
      exists (String y p'), q'. reflexivity.
Qed.

Lemma contains_app_l k a x : contains k a = true -> contains k (a ++ x) = true.
Proof.
  rewrite !contains_app. intros (p & q & ->). exists p, (q ++ x)%string.
  rewrite !str_app_assoc. reflexivity.
Qed.

Lemma contains_app_r k x b : contains k b = true -> contains k (x ++ b) = true.
Proof.
  rewrite !contains_app. intros (p & q & ->). exists (x ++ p)%string, q.
  rewrite !str_app_assoc. reflexivity.
Qed.

Lemma contains_prefix_kw k1 k2 s : contains (k1 ++ k2) s = true -> contains k1 s = true.
Proof.
  rewrite !contains_app. intros (p & q & ->). exists p, (k2 ++ q)%string.
  rewrite str_app_assoc. reflexivity.
Qed.

Lemma lower_app a b : lower (a ++ b) = (lower a ++ lower b)%string.
Proof. induction a as [|x a IH]; cbn; [reflexivity|]. rewrite IH. reflexivity. Qed.

Lemma contains_join3 k a b c :
  no_space k ->
  contains k (a ++ " " ++ (b ++ " " ++ c)) = true <->
  contains k a = true \/ contains k b = true \/ contains k c = true.
Proof.
  intros Hk. split.
  - intros H. destruct (contains_sep k a _ Hk H) as [Ha|Hbc]; [left; exact Ha|right].
    exact (contains_sep k b c Hk Hbc).
  - intros [Ha|[Hb|Hc]].
    + apply contains_app_l. exact Ha.
    + apply contains_app_r. apply (contains_app_r k " "). apply contains_app_l. exact Hb.
    + apply contains_app_r. apply (contains_app_r k " "). apply (contains_app_r k b).
      apply (contains_app_r k " "). exact Hc.
Qed.

(** X1: an address is classified as Google exactly when the database has a
    non-empty record for it and one of its three organisation fields,
    lower-cased, contains "google", "alphabet" or "gcp": the keywords with
    spaces add nothing, and no match spans two fields. *)
Theorem X1_google_ip_by_field get ip :
  检查_google_ip (Some get) ip = true <->
  exists response, get ip = Some response /\ response <> [] /\
    exists f kw, In f org_fields /\ In kw ["google"; "alphabet"; "gcp"] /\
      contains kw (lower (dict_get f response "")) = true.
Proof.
  unfold 检查_google_ip. destruct (get ip) as [resp|].
  2:{ split; [discriminate | intros (r & H & _); discriminate]. }
  destruct resp as [|e resp'].
  { split; [discriminate | intros (r & H & Hne & _); injection H as <-; congruence]. }
  set (resp := e :: resp').
  cbn [map org_fields join].
  set (a := lower (dict_get "autonomous_system_organization" resp "")).
  set (b := lower (dict_get "organization" resp "")).
  set (c := lower (dict_get "isp" resp "")).
  assert (Hns : forall kw, In kw ["google"; "alphabet"; "gcp"] -> no_space kw).
  { intros kw Hkw. cbn in Hkw.
    destruct Hkw as [<-|[<-|[<-|[]]]]; intros ch Hch; cbn in Hch;
      repeat destruct Hch as [<-|Hch]; try discriminate; destruct Hch. }
  assert (Hkw : existsb (fun kw => contains kw (a ++ " " ++ (b ++ " " ++ c))) google_keywords = true <->
                exists kw, In kw ["google"; "alphabet"; "gcp"] /\
                           contains kw (a ++ " " ++ (b ++ " " ++ c)) = true).
  { rewrite existsb_exists. split.
    - intros (kw & Hin & Hc). cbn in Hin.
      destruct Hin as [<-|[<-|[<-|[<-|[<-|[<-|[]]]]]]].
      + exists "google". split; [left; reflexivity | exact Hc].
      + exists "google". split; [left; reflexivity|].
        apply (contains_prefix_kw "google" " llc"). exact Hc.
      + exists "google". split; [left; reflexivity|].
        apply (contains_prefix_kw "google" " cloud"). exact Hc.
      + exists "google". split; [left; reflexivity|].
        apply (contains_prefix_kw "google" ".com"). exact Hc.
      + exists "alphabet". split; [right; left; reflexivity | exact Hc].
      + exists "gcp". split; [right; right; left; reflexivity | exact Hc].
    - intros (kw & Hin & Hc). exists kw. split; [|exact Hc].
      cbn in Hin |- *. destruct Hin as [<-|[<-|[<-|[]]]]; auto 7. }
  rewrite Hkw. split.
  - intros (kw & Hin & Hc). exists resp. split; [reflexivity|]. split; [discriminate|].
    apply (contains_join3 kw a b c (Hns kw Hin)) in Hc.
    destruct Hc as [Hc|[Hc|Hc]].
    + exists "autonomous_system_organization", kw. split; [left; reflexivity|]. auto.
    + exists "organization", kw. split; [right; left; reflexivity|]. auto.
    + exists "isp", kw. split; [right; right; left; reflexivity|]. auto.
  - intros (r & Hr & _ & f & kw & Hf & Hin & Hc). injection Hr as <-.
    exists kw. split; [exact Hin|]. apply (contains_join3 kw a b c (Hns kw Hin)).
    cbn in Hf. destruct Hf as [<-|[<-|[<-|[]]]]; auto.
Qed.

(** *** The DNS-list reader *)

Lemma list_ascii_of_string_app a b :
  list_ascii_of_string (a ++ b) = (list_ascii_of_string a ++ list_ascii_of_string b)%list.
Proof. induction a as [|x a IH]; cbn; [reflexivity|]. rewrite IH. reflexivity. Qed.

Lemma split_go_words s : forall cur,
  no_ws cur ->
  Forall (fun w => w <> "" /\ no_ws w) (split_go s cur).
Proof.
  induction s as [|c s IH]; intros cur Hcur; cbn [split_go].
  - destruct (String.eqb_spec cur ""); constructor; auto.
  - destruct (py_isspace c) eqn:Hc.
    + destruct (String.eqb_spec cur "") as [->|Hne].
      * apply IH. intros x [].
      * constructor; [auto|]. apply IH. intros x [].
    + apply IH. intros x Hx. rewrite list_ascii_of_string_app in Hx.
      apply in_app_or in Hx as [Hx|[<-|[]]]; [exact (Hcur x Hx) | exact Hc].
Qed.

Lemma first_address_spec ip_version4 parts p :
  first_address ip_version4 parts = Some p -> In p parts /\ ip_version4 p <> None.
Proof.
  induction parts as [|q parts IH]; cbn; [discriminate|].
  destruct (ip_version4 q) eqn:E.
  - intros H. injection H as <-. split; [left; reflexivity | congruence].
  - intros H. destruct (IH H) as [Hin Hv]. split; [right; exact Hin | exact Hv].
Qed.

Lemma read_lines_spec ip_version4 lines : forall acc,
  exists added, read_lines ip_version4 lines acc = (acc ++ added)%list /\
    (length added <= length lines)%nat /\
    Forall (fun x => ip_version4 x <> None /\
                     (exists line, In line lines /\ In x (py_split (strip line)))) added.
Proof.
  induction lines as [|line lines IH]; intros acc; cbn [read_lines].
  - exists []. rewrite app_nil_r. auto.
  - destruct (String.eqb (strip line) "").
    + destruct (IH acc) as (added & Heq & Hlen & Hall). exists added.
      split; [exact Heq|]. split; [cbn; lia|].
      eapply Forall_impl; [|exact Hall]. intros x [Hv (l & Hl & Hx)].
      split; [exact Hv|]. exists l. split; [right; exact Hl | exact Hx].
    + destruct (first_address ip_version4 (py_split (strip line))) as [part|] eqn:F.
      * destruct (IH (acc ++ [part])%list) as (added & Heq & Hlen & Hall).
        exists (part :: added). rewrite Heq, <- app_assoc. split; [reflexivity|].
        split; [cbn; lia|]. apply first_address_spec in F as [Hin Hv].
        constructor.
        -- split; [exact Hv|]. exists line. split; [left; reflexivity | exact Hin].
        -- eapply Forall_impl; [|exact Hall]. intros x [Hx (l & Hl & Hxl)].
           split; [exact Hx|]. exists l. split; [right; exact Hl | exact Hxl].
      * destruct (IH acc) as (added & Heq & Hlen & Hall). exists added.
        split; [exact Heq|]. split; [cbn; lia|].
        eapply Forall_impl; [|exact Hall]. intros x [Hv (l & Hl & Hx)].
        split; [exact Hv|]. exists l. split; [right; exact Hl | exact Hx].
Qed.

(** X2: when [读取_dns列表] returns, the download succeeded with a status
    outside 400-599, the list has at most one entry per line of the text,
    and each entry is a non-empty whitespace-free word of one of its lines
    that [ipaddress.ip_address] accepts. *)
Theorem X2_read_list_entries ip_version4 get url dns_list
  (H : 读取_dns列表 ip_version4 get url = Some dns_list) :
  exists resp, get url = Response resp /\
    (status_code resp < 400 \/ 600 <= status_code resp)%Z /\
    (length dns_list <= length (splitlines (resp_text resp)))%nat /\
    Forall (fun x => ip_version4 x <> None /\ x <> "" /\ no_ws x /\
                     exists line, In line (splitlines (resp_text resp)) /\
                                  In x (py_split (strip line))) dns_list.
Proof.
  unfold 读取_dns列表 in H. destruct (get url) as [resp|]; [|discriminate].
  exists resp. split; [reflexivity|].
  destruct (raise_for_status resp) eqn:R; [discriminate|].
  injection H as <-. split.
  - unfold raise_for_status in R. apply andb_false_iff in R as [R|R];
      [left; apply Z.leb_gt in R | right; apply Z.ltb_ge in R]; exact R.
  - destruct (read_lines_spec ip_version4 (splitlines (resp_text resp)) [])
      as (added & -> & Hlen & Hall).
    split; [exact Hlen|]. eapply Forall_impl; [|exact Hall].
    intros x [Hv (line & Hl & Hx)].
    assert (Hw := proj1 (Forall_forall _ _) (split_go_words (strip line) "" (fun c (H : In c []) => match H with end)) x Hx).
    destruct Hw as [Hne Hws]. repeat split; auto. exists line. auto.
Qed.

Lemma X2_witness :
  let l := match 读取_dns列表 example_ip_version4 example_get "https://public-dns.info/nameservers.txt" with
           | Some l => l | None => [] end in
  l = ["8.8.8.8"; "2001:4860:4860::8888"] /\
  exists resp, example_get "https://public-dns.info/nameservers.txt" = Response resp /\
    (status_code resp < 400 \/ 600 <= status_code resp)%Z /\
    (length l <= length (splitlines (resp_text resp)))%nat /\
    Forall (fun x => example_ip_version4 x <> None /\ x <> "" /\ no_ws x /\
                     exists line, In line (splitlines (resp_text resp)) /\
                                  In x (py_split (strip line))) l.
Proof.
  intros l. split; [vm_compute; reflexivity|].
  apply (X2_read_list_entries example_ip_version4 example_get
           "https://public-dns.info/nameservers.txt" l).
  vm_compute. reflexivity.
Defined.

(** *** The IP-version filter and the record type *)

Lemma filter_fold (ip_version4 : string -> option bool) (l : list string) : forall v4 v6,
  fold_left
    (fun acc ip_str =>
       let '(v4, v6) := acc in
       match ip_version4 ip_str with
       | Some true => ((v4 ++ [ip_str])%list, v6)
       | Some false => (v4, (v6 ++ [ip_str])%list)
       | None => (v4, v6)
       end) l (v4, v6) =
  ((v4 ++ filter (fun x => match ip_version4 x with Some true => true | _ => false end) l)%list,
   (v6 ++ filter (fun x => match ip_version4 x with Some false => true | _ => false end) l)%list).
Proof.
  induction l as [|x l IH]; intros v4 v6; cbn [fold_left filter].
  - rewrite !app_nil_r. reflexivity.
  - destruct (ip_version4 x) as [[|]|]; rewrite IH, <- ?app_assoc; reflexivity.
Qed.

(** X3: [按IP版本过滤] keeps, in input order, the entries [ip_address]
    accepts as IPv4 for mode "4" and as IPv6 for mode "6"; for any other
    mode it lists all accepted IPv4 entries, then all accepted IPv6 ones.
    Entries it cannot parse are dropped. *)
Theorem X3_filter_by_family ip_version4 dns_list mode :
  let is4 := fun x => match ip_version4 x with Some true => true | _ => false end in
  let is6 := fun x => match ip_version4 x with Some false => true | _ => false end in
  按IP版本过滤 ip_version4 dns_list mode =
  if String.eqb mode "4" then filter is4 dns_list
  else if String.eqb mode "6" then filter is6 dns_list
  else (filter is4 dns_list ++ filter is6 dns_list)%list.
Proof.
  cbv zeta. unfold 按IP版本过滤. rewrite filter_fold. reflexivity.
Qed.

(** X4: for every answer to the mode prompt that [main] accepts, every
    server left by the filter is benchmarked with "A" queries exactly when
    it is an IPv4 address, and with "AAAA" otherwise. *)
Theorem X4_record_type_matches_family ip_version4 entered ip_mode dns_list x
  (Hmode : 选择模式 entered = Some ip_mode)
  (Hx : In x (按IP版本过滤 ip_version4 dns_list ip_mode)) :
  record_type ip_mode (match ip_version4 x with Some b => b | None => true end) = "A" <->
  ip_version4 x = Some true.
Proof.
  unfold 选择模式 in Hmode. unfold 按IP版本过滤 in Hx. rewrite filter_fold in Hx.
  cbn [app] in Hx.
  assert (Hm : ip_mode = "4" \/ ip_mode = "6" \/ ip_mode = "46").
  { destruct (String.eqb _ "1"); [injection Hmode as <-; auto|].
    destruct (String.eqb _ "2"); [injection Hmode as <-; auto|].
    destruct (String.eqb _ "3"); [injection Hmode as <-; auto | discriminate]. }
  destruct Hm as [-> | [-> | ->]]; cbn in Hx |- *.
  - apply filter_In in Hx as [_ Hx].
    destruct (ip_version4 x) as [[|]|]; try discriminate; split; reflexivity.
  - apply filter_In in Hx as [_ Hx].
    destruct (ip_version4 x) as [[|]|]; try discriminate; split; discriminate.
  - apply in_app_or in Hx as [Hx|Hx]; apply filter_In in Hx as [_ Hx];
      destruct (ip_version4 x) as [[|]|]; try discriminate; split;
      first [reflexivity | discriminate].
Qed.

Lemma X4_witness :
  选择模式 " 3 " = Some "46" /\
  In "2001:4860:4860::8888"
     (按IP版本过滤 example_ip_version4 ["8.8.8.8"; "2001:4860:4860::8888"; "unknown"] "46") /\
  (record_type "46" (match example_ip_version4 "2001:4860:4860::8888" with
                     | Some b => b | None => true end) = "A" <->
   example_ip_version4 "2001:4860:4860::8888" = Some true).
Proof.
  assert (Hm : 选择模式 " 3 " = Some "46") by (vm_compute; reflexivity).
  assert (Hx : In "2001:4860:4860::8888"
     (按IP版本过滤 example_ip_version4 ["8.8.8.8"; "2001:4860:4860::8888"; "unknown"] "46"))
    by (vm_compute; right; left; reflexivity).
  split; [exact Hm|]. split; [exact Hx|].
  exact (X4_record_type_matches_family example_ip_version4 " 3 " "46" _ _ Hm Hx).
Defined.

(** *** The per-thread resolver dict *)

Lemma tl_lookup_Qeq s t t' c :
  t' == t -> tl_lookup (s, t') c = tl_lookup (s, t) c.
Proof.
  intros Ht. induction c as [|[[s0 t0] r0] c IH]; cbn; [reflexivity|].
  assert (E : Qeq_bool t' t0 = Qeq_bool t t0).
  { destruct (Qeq_bool t t0) eqn:E1.
    - apply Qeq_bool_iff in E1. apply Qeq_bool_iff. rewrite Ht. exact E1.
    - destruct (Qeq_bool t' t0) eqn:E2; [|reflexivity].
      apply Qeq_bool_iff in E2. rewrite Ht in E2. apply Qeq_bool_iff in E2. congruence. }
  rewrite E, IH. reflexivity.
Qed.

Lemma tl_lookup_app_none k c e :
  tl_lookup k c = None -> tl_lookup k (c ++ [e])%list = tl_lookup k [e].
Proof.
  induction c as [|[k0 r0] c IH]; cbn; [reflexivity|].
  destruct (_ && _)%bool; [discriminate | exact IH].
Qed.

Lemma tl_lookup_app_some k c ext r :
  tl_lookup k c = Some r -> tl_lookup k (c ++ ext)%list = Some r.
Proof.
  induction c as [|[k0 r0] c IH]; cbn; [discriminate|].
  destruct (_ && _)%bool; [exact id | exact IH].
Qed.

Lemma get_resolver_extends sys c s t c' r :
  获取_resolver sys c s t = Ok (c', r) -> exists ext, c' = (c ++ ext)%list.
Proof.
  unfold 获取_resolver. destruct (tl_lookup (s, t) c).
  - intros H. injection H as <- _. exists []. symmetry. apply app_nil_r.
  - unfold bind. destruct (Resolver_new sys true); [|discriminate].
    intros H. injection H as <- _. eexists. reflexivity.
Qed.

Lemma resolver_calls_extends calls :
  forall c, exists ext, resolver_calls c calls = (c ++ ext)%list.
Proof.
  induction calls as [|[[sys s] t] calls IH]; intros c; cbn [resolver_calls].
  - exists []. symmetry. apply app_nil_r.
  - destruct (获取_resolver sys c s t) as [[c1 r1]|e] eqn:E.
    + destruct (get_resolver_extends _ _ _ _ _ _ E) as [e1 ->].
      destruct (IH (c ++ e1)%list) as [e2 ->]. exists (e1 ++ e2)%list.
      symmetry. apply app_assoc.
    + apply IH.
Qed.

Lemma get_resolver_lookup sys c s t c' r :
  获取_resolver sys c s t = Ok (c', r) -> tl_lookup (s, t) c' = Some r.
Proof.
  unfold 获取_resolver. destruct (tl_lookup (s, t) c) as [r0|] eqn:L.
  - intros H. injection H as <- <-. exact L.
  - unfold bind. destruct (Resolver_new sys true) as [r1|e]; [|discriminate].
    intros H. injection H as <- <-. rewrite tl_lookup_app_none by exact L. cbn.
    rewrite String.eqb_refl. replace (Qeq_bool t t) with true
      by (symmetry; apply Qeq_bool_iff; reflexivity).
    reflexivity.
Qed.

(** X5: once a worker has built or found its resolver for a server and a
    timeout, every later request of that worker with the same server and an
    equal timeout, after any further calls for this or other servers,
    returns that same resolver and leaves the dict as it is, whatever the
    system configuration has become meanwhile. *)
Theorem X5_resolver_reused sys c s t c' r
  (H : 获取_resolver sys c s t = Ok (c', r)) :
  forall calls sys' t', t' == t ->
  获取_resolver sys' (resolver_calls c' calls) s t' = Ok (resolver_calls c' calls, r).
Proof.
  intros calls sys' t' Ht. unfold 获取_resolver at 1.
  rewrite (tl_lookup_Qeq s t t' _ Ht).
  destruct (resolver_calls_extends calls c') as [ext ->].
  rewrite (tl_lookup_app_some _ _ ext r (get_resolver_lookup _ _ _ _ _ _ H)).
  reflexivity.
Qed.

Lemma X5_witness :
  let built := 获取_resolver example_resolv_conf [] "8.8.8.8" (3 # 10) in
  let c' := match built with Ok (c', _) => c' | Err _ => [] end in
  let r := match built with Ok (_, r) => r | Err _ => Resolver_reset end in
  let calls := [(None, "1.1.1.1", 3 # 10); (example_resolv_conf, "1.1.1.1", 3 # 10);
                (example_resolv_conf, "8.8.8.8", 1 # 2)] in
  built = Ok (c', r) /\
  获取_resolver None (resolver_calls c' calls) "8.8.8.8" (6 # 20) =
  Ok (resolver_calls c' calls, r).
Proof.
  intros built c' r calls.
  assert (H : built = Ok (c', r)) by (vm_compute; reflexivity).
  split; [exact H|].
  apply (X5_resolver_reused example_resolv_conf [] "8.8.8.8" (3 # 10) c' r H).
  vm_compute. reflexivity.
Defined.

(** *** The benchmark record *)









Lemma dict_get_set {V} k k' (v : V) d def :
  dict_get k (dict_set k' v d) def = if String.eqb k k' then v else dict_get k d def.
Proof.
  induction d as [|[k0 v0] d IH]; cbn.
  - destruct (String.eqb k k'); reflexivity.
  - destruct (String.eqb_spec k' k0) as [->|Hne]; cbn.
    + destruct (String.eqb k k0); reflexivity.
    + rewrite IH. destruct (String.eqb_spec k k0) as [->|Hk0]; [|reflexivity].
      destruct (String.eqb_spec k0 k') as [->|_]; [congruence | reflexivity].
Qed.

Lemma bench_loop_keeps_key sys net clock server ip_mode v4 t thr k domains :
  ~ In k domains ->
  forall c st c' st',
  bench_loop sys net clock server ip_mode v4 t thr domains c st = (c', Some st') ->
  dict_get k (domain_ips st') [] = dict_get k (domain_ips st) [].
Proof.
  intros Hk. induction domains as [|d rest IH]; intros c st c' st' H; cbn [bench_loop] in H.
  - injection H as _ <-. reflexivity.
  - destruct (执行_dns查询 _ _ _ _ _ _ _ _ _) as [c1 [[ok lat] ips]].
    destruct (Qltb lat thr); [discriminate|].
    rewrite (IH (fun Hin => Hk (or_intror Hin)) _ _ _ _ H). cbn [domain_ips].
    rewrite dict_get_set. destruct (String.eqb_spec k d) as [->|_]; [|reflexivity].
    exfalso. apply Hk. left. reflexivity.
Qed.

(** X7: in [main]'s runs ([TEST_DOMAINS[:n]], n >= 1), the [google_ips] of
    a record are exactly the addresses the run's first query, for
    google.com, returned (empty when that query failed). *)
Theorem X7_google_ips_first_query sys net clock ip_version4 c server n ip_mode t thr flag r
  (Hn : (1 <= n)%nat)
  (H : snd (测试单个dns sys net clock ip_version4 c server (firstn n TEST_DOMAINS)
                        ip_mode t thr flag) = Some r) :
  let v4 := match ip_version4 server with Some b => b | None => true end in
  google_ips r =
  snd (snd (执行_dns查询 sys (net 1%nat) (fst (clock 1%nat)) (snd (clock 1%nat)) c
                         "google.com" server (record_type ip_mode v4) t)).
Proof.
  cbv zeta. destruct n as [|n]; [lia|].
  unfold 测试单个dns in H. cbn [firstn TEST_DOMAINS bench_loop] in H.
  set (v4 := match ip_version4 server with Some b => b | None => true end) in *.
  cbn [总次数 run_init] in H.
  destruct (执行_dns查询 sys (net 1%nat) (fst (clock 1%nat)) (snd (clock 1%nat)) c
              "google.com" server (record_type ip_mode v4) t) as [c1 [[ok lat] ips]] eqn:E.
  cbn [snd].
  destruct (Qltb lat thr); [discriminate|].
  destruct (bench_loop _ _ _ _ _ _ _ _ _ _ _) as [c' [st|]] eqn:B; [|discriminate].
  set (tl := ["facebook.com"; "amazon.com"; "microsoft.com"; "apple.com";
              "cloudflare.com"; "alibaba.com"; "baidu.com"; "tencent.com";
              "netflix.com"]) in B.
  assert (Hnot : ~ In "google.com" (firstn n tl)).
  { intros Hin. assert (Hin' : In "google.com" tl).
    { rewrite <- (firstn_skipn n tl). apply in_or_app. left. exact Hin. }
    cbn in Hin'. repeat destruct Hin' as [Hin'|Hin']; try discriminate. exact Hin'. }
  assert (Hk : dict_get "google.com" (domain_ips st) [] = ips).
  { rewrite (bench_loop_keeps_key _ _ _ _ _ _ _ _ "google.com" _ Hnot _ _ _ _ B).
    reflexivity. }
  destruct (延迟列表 st) as [|first rest]; [discriminate|].
  destruct (Nat.eqb (总次数 st) 0); [discriminate|].
  injection H as <-. exact Hk.
Qed.

Lemma X7_witness :
  let res := snd (测试单个dns example_resolv_conf google_net clock_50ms (fun _ => Some true) []
                    "8.8.8.8" (firstn 3 TEST_DOMAINS) "4" (3 # 10) 10 true) in
  let r := match res with
           | Some r => r
           | None => {| dns_server := ""; 成功率 := 0; 平均延迟_ms := 0; 最小延迟_ms := 0;
                        最大延迟_ms := 0; dns污染 := 未测试; google_ips := [] |}
           end in
  res = Some r /\ google_ips r = ["8.8.8.8"] /\
  google_ips r =
  snd (snd (执行_dns查询 example_resolv_conf (google_net 1%nat) (fst (clock_50ms 1%nat))
              (snd (clock_50ms 1%nat)) [] "google.com" "8.8.8.8"
              (record_type "4" (match (fun _ : string => Some true) "8.8.8.8" with
                                | Some b => b | None => true end)) (3 # 10))).
Proof.
  intros res r.
  assert (H : res = Some r) by (vm_compute; reflexivity).
  split; [exact H|]. split; [vm_compute; reflexivity|].
  exact (X7_google_ips_first_query example_resolv_conf google_net clock_50ms (fun _ => Some true)
           [] "8.8.8.8" 3 "4" (3 # 10) 10 true r ltac:(lia) H).
Defined.

(** *** Verification phase, finalisation and sort *)

Lemma pending_positions_nil_iff rs : forall k,
  pending_positions k rs = [] <-> Forall (fun r => dns污染 r <> 待检测) rs.
Proof.
  induction rs as [|x rs IH]; intros k; cbn [pending_positions].
  - split; [constructor | reflexivity].
  - destruct (String.eqb (label (dns污染 x)) "待检测") eqn:E.
    + split; [discriminate|]. intros Hf. inversion Hf as [|a b Hx _]; subst.
      apply label_pending_iff in E. contradiction.
    + rewrite IH. split.
      * intros Hf. constructor; [|exact Hf]. intros Hp. apply label_pending_iff in Hp. congruence.
      * intros Hf. inversion Hf; assumption.
Qed.

Lemma pending_positions_cons_exists rs : forall k i is,
  pending_positions k rs = i :: is -> Exists (fun r => dns污染 r = 待检测) rs.
Proof.
  induction rs as [|x rs IH]; intros k i is; cbn [pending_positions]; [discriminate|].
  destruct (String.eqb (label (dns污染 x)) "待检测") eqn:E.
  - intros _. left. apply label_pending_iff. exact E.
  - intros H. right. exact (IH _ _ _ H).
Qed.

(** X8: the body of step 8 (what runs once [if 开启污染检查:] has passed)
    fails exactly when the pool gets no worker
    ([threads // 4 <= 0], i.e. fewer than 4 threads) while some record is
    pending, and then only with [ValueError]; with no pending record it
    creates no pool and cannot fail. *)
Theorem X8_verification_pool_error verify threads rs :
  (forall e, verification_phase verify threads rs = Err e ->
             e = ValueError "max_workers must be greater than 0") /\
  ((exists e, verification_phase verify threads rs = Err e) <->
   (threads / 4 <= 0)%Z /\ Exists (fun r => dns污染 r = 待检测) rs).
Proof.
  unfold verification_phase.
  destruct (pending_positions 0 rs) as [|i is] eqn:P.
  - split; [intros e H; discriminate|]. split; [intros [e H]; discriminate|].
    intros [_ Hex]. apply pending_positions_nil_iff in P.
    apply Exists_exists in Hex as (r & Hin & Hr).
    exfalso. exact (proj1 (Forall_forall _ _) P r Hin Hr).
  - assert (Hex : Exists (fun r => dns污染 r = 待检测) rs)
      by exact (pending_positions_cons_exists rs 0 i is P).
    unfold bind, ThreadPoolExecutor. destruct (Z.leb_spec (threads / 4) 0) as [Hle|Hgt].
    + split; [intros e H; injection H as <-; reflexivity|].
      split; [intros _; split; assumption | intros _; eexists; reflexivity].
    + split; [intros e H; discriminate|]. split; [intros [e H]; discriminate | intros [Hle _]; lia].
Qed.

Lemma X8_witness :
  let rs := [{| dns_server := "8.8.8.8"; 成功率 := 1; 平均延迟_ms := 50; 最小延迟_ms := 50;
                最大延迟_ms := 50; dns污染 := 待检测; google_ips := ["8.8.8.8"] |}] in
  verification_phase (fun _ _ => Ok 未污染) 3 rs = Err (ValueError "max_workers must be greater than 0") /\
  ((exists e, verification_phase (fun _ _ => Ok 未污染) 3 rs = Err e) <->
   (3 / 4 <= 0)%Z /\ Exists (fun r => dns污染 r = 待检测) rs).
Proof.
  intros rs. split; [vm_compute; reflexivity|].
  exact (proj2 (X8_verification_pool_error (fun _ _ => Ok 未污染) 3 rs)).
Defined.

(** X9: when the verification phase succeeds, it keeps every record in
    place with all its fields, except the label of each pending record,
    which becomes the verifier's verdict, or Polluted when it raised. *)
Theorem X9_verification_changes_only_pending_labels verify threads rs rs'
  (H : verification_phase verify threads rs = Ok rs') :
  Forall2 (fun r r' =>
    dns_server r' = dns_server r /\ 成功率 r' = 成功率 r /\ 平均延迟_ms r' = 平均延迟_ms r /\
    最小延迟_ms r' = 最小延迟_ms r /\ 最大延迟_ms r' = 最大延迟_ms r /\
    google_ips r' = google_ips r /\
    dns污染 r' = (if String.eqb (label (dns污染 r)) "待检测" then
                    match verify (dns_server r) (google_ips r) with Ok v => v | Err _ => 已污染 end
                  else dns污染 r)) rs rs'.
Proof.
  apply verification_phase_map in H. subst rs'.
  induction rs as [|r rs IH]; cbn [map]; constructor; [|exact IH].
  unfold after_verification, verdict_of.
  destruct (String.eqb (label (dns污染 r)) "待检测"); cbn; repeat split.
Qed.

Lemma X9_witness :
  let rs := [{| dns_server := "8.8.8.8"; 成功率 := 1; 平均延迟_ms := 50; 最小延迟_ms := 50;
                最大延迟_ms := 50; dns污染 := 待检测; google_ips := ["8.8.8.8"] |};
             {| dns_server := "1.1.1.1"; 成功率 := 1 # 3; 平均延迟_ms := 30; 最小延迟_ms := 30;
                最大延迟_ms := 30; dns污染 := 未测试; google_ips := [] |}] in
  let verify := verify_main example_reader example_resolv_conf two_round_net in
  let rs' := match verification_phase verify 64 rs with Ok l => l | Err _ => [] end in
  verification_phase verify 64 rs = Ok rs' /\ map dns污染 rs' = [未污染; 未测试] /\
  Forall2 (fun r r' =>
    dns_server r' = dns_server r /\ 成功率 r' = 成功率 r /\ 平均延迟_ms r' = 平均延迟_ms r /\
    最小延迟_ms r' = 最小延迟_ms r /\ 最大延迟_ms r' = 最大延迟_ms r /\
    google_ips r' = google_ips r /\
    dns污染 r' = (if String.eqb (label (dns污染 r)) "待检测" then
                    match verify (dns_server r) (google_ips r) with Ok v => v | Err _ => 已污染 end
                  else dns污染 r)) rs rs'.
Proof.
  intros rs verify rs'.
  assert (H : verification_phase verify 64 rs = Ok rs') by (vm_compute; reflexivity).
  split; [exact H|]. split; [vm_compute; reflexivity|].
  exact (X9_verification_changes_only_pending_labels verify 64 rs rs' H).
Defined.

Lemma insert_by_perm {A} (cmp : A -> A -> comparison) x l : Permutation (insert_by cmp x l) (x :: l).
Proof.
  induction l as [|y l IH]; cbn; [reflexivity|].
  destruct (cmp x y); try reflexivity;
    (etransitivity; [apply perm_skip; exact IH | apply perm_swap]).
Qed.

Lemma stable_sort_perm {A} (cmp : A -> A -> comparison) l : Permutation (stable_sort cmp l) l.
Proof.
  unfold stable_sort.
  assert (Hg : forall acc, Permutation (fold_left (fun acc x => insert_by cmp x acc) l acc) (acc ++ l)).
  { induction l as [|x l IH]; intros acc; cbn [fold_left]; [rewrite app_nil_r; reflexivity|].
    rewrite IH. rewrite insert_by_perm. cbn. apply Permutation_middle. }
  exact (Hg []).
Qed.

Lemma finalize_servers rs : map dns_server (finalize rs) = map dns_server rs.
Proof.
  unfold finalize. rewrite map_map. apply map_ext. intros r.
  destruct (String.eqb _ _); reflexivity.
Qed.

Lemma after_verification_servers verify rs :
  map dns_server (map (after_verification verify) rs) = map dns_server rs.
Proof.
  rewrite map_map. apply map_ext. intros r. unfold after_verification.
  destruct (String.eqb _ _); reflexivity.
Qed.

(** X10: the report holds the benchmarked servers, each exactly as often as
    in the benchmark results: no record is dropped or duplicated by the
    verification, the finalisation or the sort. *)
Theorem X10_report_keeps_servers s verify threads 结果列表 report
  (H : orchestrate s verify threads 结果列表 = Ok report) :
  Permutation (map dns_server report) (map dns_server 结果列表).
Proof.
  unfold orchestrate in H. destruct 结果列表 as [|r0 rs0]; [discriminate|].
  destruct (lookup "开启污染检查" s) as [flag|]; [|discriminate].
  unfold bind in H.
  assert (Hmid : forall rs', (if truthy flag then verification_phase verify threads (r0 :: rs0)
                              else Ok (r0 :: rs0)) = Ok rs' ->
                             map dns_server rs' = map dns_server (r0 :: rs0)).
  { intros rs' Hv. destruct (truthy flag).
    - apply verification_phase_map in Hv. subst rs'. apply after_verification_servers.
    - injection Hv as <-. reflexivity. }
  destruct (if truthy flag then verification_phase verify threads (r0 :: rs0) else Ok (r0 :: rs0))
    as [rs'|e]; [|discriminate].
  specialize (Hmid rs' eq_refl).
  unfold sort_values in H. destruct (Nat.eqb _ _); [|discriminate].
  injection H as <-. rewrite <- Hmid.
  transitivity (map dns_server (finalize rs')).
  - apply Permutation_map. apply stable_sort_perm.
  - rewrite finalize_servers. reflexivity.
Qed.

Lemma X10_witness :
  let rs := [{| dns_server := "8.8.8.8"; 成功率 := 1; 平均延迟_ms := 50; 最小延迟_ms := 50;
                最大延迟_ms := 50; dns污染 := 待检测; google_ips := ["8.8.8.8"] |};
             {| dns_server := "1.1.1.1"; 成功率 := 1; 平均延迟_ms := 30; 最小延迟_ms := 30;
                最大延迟_ms := 30; dns污染 := 待检测; google_ips := ["8.8.8.8"] |}] in
  let verify := verify_main example_reader example_resolv_conf two_round_net in
  let report := match orchestrate flagged_scope verify 64 rs with Ok l => l | Err _ => [] end in
  orchestrate flagged_scope verify 64 rs = Ok report /\
  map dns_server report = ["1.1.1.1"; "8.8.8.8"] /\
  Permutation (map dns_server report) (map dns_server rs).
Proof.
  intros rs verify report.
  assert (H : orchestrate flagged_scope verify 64 rs = Ok report) by (vm_compute; reflexivity).
  split; [exact H|]. split; [vm_compute; reflexivity|].
  exact (X10_report_keeps_servers flagged_scope verify 64 rs report H).
Defined.

(** X11: if [开启污染检查] is bound to a false value, the orchestration of a
    non-empty result list always raises [ValueError]: [sort_values] then
    gets two sort columns but three [ascending] flags. *)
Theorem X11_flag_off_sort_raises s verify threads 结果列表 v
  (Hs : lookup "开启污染检查" s = Some v) (Hf : truthy v = false) (Hne : 结果列表 <> []) :
  orchestrate s verify threads 结果列表 = Err (ValueError "Length of ascending != length of by").
Proof.
  unfold orchestrate. destruct 结果列表 as [|r0 rs0]; [congruence|].
  rewrite Hs, Hf. reflexivity.
Qed.

Lemma X11_witness :
  let s := ("开启污染检查", VBool false) :: main_scope in
  let rs := [{| dns_server := "8.8.8.8"; 成功率 := 1; 平均延迟_ms := 50; 最小延迟_ms := 50;
                最大延迟_ms := 50; dns污染 := 未测试; google_ips := ["8.8.8.8"] |}] in
  lookup "开启污染检查" s = Some (VBool false) /\ truthy (VBool false) = false /\ rs <> [] /\
  orchestrate s (fun _ _ => Ok 未污染) 64 rs = Err (ValueError "Length of ascending != length of by").
Proof.
  intros s rs.
  assert (Hs : lookup "开启污染检查" s = Some (VBool false)) by (vm_compute; reflexivity).
  assert (Hf : truthy (VBool false) = false) by reflexivity.
  assert (Hne : rs <> []) by discriminate.
  split; [exact Hs|]. split; [exact Hf|]. split; [exact Hne|].
  exact (X11_flag_off_sort_raises s (fun _ _ => Ok 未污染) 64 rs (VBool false) Hs Hf Hne).
Defined.

(** *** The exported sheet *)

Lemma fold_max_const k l : Forall (fun x => x = k) l -> fold_left Nat.max l k = k.
Proof.
  induction 1 as [|x l Hx _ IH]; cbn [fold_left]; [reflexivity|].
  subst x. rewrite Nat.max_id. exact IH.
Qed.

Lemma export_sheet_shape report :
  ws_max_column (to_excel_rows true report) = 6%nat /\
  ws_max_row (to_excel_rows true report) = S (length report).
Proof.
  split.
  - unfold ws_max_column, to_excel_rows. cbn [map fold_left length export_cols app].
    rewrite fold_max_const; [reflexivity|].
    apply Forall_forall. intros x Hx. apply in_map_iff in Hx as (row & <- & Hrow).
    apply in_map_iff in Hrow as (r & <- & _). reflexivity.
  - unfold ws_max_row, to_excel_rows. cbn [length]. rewrite length_map. lia.
Qed.

Lemma ws_cell_label report i r :
  nth_error report i = Some r ->
  ws_cell (to_excel_rows true report) (i + 2) 6 = XStr (label (dns污染 r)).
Proof.
  intros Hi. unfold ws_cell, to_excel_rows.
  replace (i + 2 - 1)%nat with (S i) by lia. cbn [nth].
  rewrite (nth_error_nth _ _ _ (map_nth_error _ i report Hi)).
  reflexivity.
Qed.

Lemma label_clean_iff v : xl_eqb (XStr (label v)) (XStr "未污染") = true <-> v = 未污染.
Proof. destruct v; cbn; split; congruence. Qed.

(** X12: after [设置_excel样式] on the sheet [main] exports, a cell is filled
    green exactly when the flag is set and the cell lies in one of the six
    columns of a data row whose record is Clean; the header row is never
    filled, and nothing is filled when the flag is off. *)
Theorem X12_green_rows_are_clean str_len_num flag report st
  (H : 设置_excel样式 str_len_num (Some (to_excel_rows flag report)) flag = Some st) :
  forall row col, In (row, col) (st_fills st) <->
    flag = true /\ (1 <= col <= 6)%nat /\ (2 <= row)%nat /\
    exists r, nth_error report (row - 2) = Some r /\ dns污染 r = 未污染.
Proof.
  intros row col. destruct (export_sheet_shape report) as [Hc Hr].
  remember (to_excel_rows flag report) as ws eqn:Hws.
  injection H as <-. cbn [st_fills].
  destruct flag; [|split; [intros [] | intros [Hf _]; discriminate]].
  rewrite Hws, Hc, Hr.
  replace (S (length report) - 1)%nat with (length report) by lia.
  rewrite in_flat_map. split.
  - intros (x & Hx & Hin). apply in_seq in Hx.
    destruct (nth_error report (x - 2)) as [r|] eqn:Hn.
    2:{ apply nth_error_None in Hn. lia. }
    replace x with (x - 2 + 2)%nat in Hin by lia.
    rewrite (ws_cell_label report (x - 2) r Hn) in Hin.
    destruct (xl_eqb (XStr (label (dns污染 r))) (XStr "未污染")) eqn:E; [|destruct Hin].
    apply in_map_iff in Hin as (c & Hc' & Hcin). injection Hc' as <- <-.
    apply in_seq in Hcin.
    split; [reflexivity|]. split; [lia|]. split; [lia|].
    exists r. split; [rewrite Nat.add_sub; exact Hn|]. apply label_clean_iff. exact E.
  - intros (_ & Hcol & Hrow & r & Hn & Hclean). exists row. split.
    + apply in_seq. assert (Hlt : (row - 2 < length report)%nat)
        by (apply nth_error_Some; congruence). lia.
    + pose proof (ws_cell_label report (row - 2) r Hn) as Hcell.
      replace (row - 2 + 2)%nat with row in Hcell by lia. rewrite Hcell.
      replace (xl_eqb (XStr (label (dns污染 r))) (XStr "未污染")) with true
        by (symmetry; apply label_clean_iff; exact Hclean).
      apply in_map_iff. exists col. split; [f_equal; lia | apply in_seq; lia].
Qed.

Lemma X12_witness :
  let report := [{| dns_server := "1.1.1.1"; 成功率 := 1; 平均延迟_ms := 30; 最小延迟_ms := 30;
                    最大延迟_ms := 30; dns污染 := 已污染; google_ips := ["8.8.8.8"] |};
                 {| dns_server := "8.8.8.8"; 成功率 := 1; 平均延迟_ms := 50; 最小延迟_ms := 50;
                    最大延迟_ms := 50; dns污染 := 未污染; google_ips := ["8.8.8.8"] |}] in
  let st := match 设置_excel样式 (fun _ => 3%nat) (Some (to_excel_rows true report)) true with
            | Some st => st
            | None => {| st_rows := []; st_widths := []; st_fills := [] |}
            end in
  设置_excel样式 (fun _ => 3%nat) (Some (to_excel_rows true report)) true = Some st /\
  (In (3%nat, 6%nat) (st_fills st) <->
   true = true /\ (1 <= 6 <= 6)%nat /\ (2 <= 3)%nat /\
   exists r, nth_error report (3 - 2) = Some r /\ dns污染 r = 未污染).
Proof.
  intros report st.
  assert (H : 设置_excel样式 (fun _ => 3%nat) (Some (to_excel_rows true report)) true = Some st)
    by (vm_compute; reflexivity).
  split; [exact H|].
  exact (X12_green_rows_are_clean (fun _ => 3%nat) true report st H 3 6).
Defined.
